(** * KaanoonGPT: account provisioning and authentication

    A shallow embedding of the authentication core of the repository
    (utils/password.py, models/user.py, models/schemas.py,
    services/email_services.py and routers/auth.py) together with the
    properties stated about it.

    Conventions of the embedding.
    - A Python [str] is a [string]; each character stands for one code point
      below 256.
    - A function that may raise returns a [result]; [try]/[except] is
      [try_except].
    - A [datetime] is the number of microseconds since 0001-01-01T00:00:00.
    - The MongoDB collections are lists of documents in insertion order;
      a request handler is a computation in the monad [M], which threads the
      collections and keeps every write made before an exception is raised.
    - Third-party libraries (hashlib, bcrypt, python-jose, pydantic's
      EmailStr, strptime) are operations of the class [Libs]. *)

From Stdlib Require Import String Ascii List ZArith Bool Lia DecimalString.
Import ListNotations.
Local Open Scope string_scope.
Local Open Scope Z_scope.

(** ** Python values, exceptions and results *)

Inductive exn : Type :=
| HTTPException (status_code : Z) (detail : string)
| ValueError (msg : string)
| OtherException (cls : string) (msg : string).

Inductive result (A : Type) : Type :=
| Ok (a : A)
| Raise (e : exn).
Arguments Ok {A} a.
Arguments Raise {A} e.

(** [str(e)] for the exceptions whose text the handlers interpolate. *)
Definition str_exn (e : exn) : string :=
  match e with
  | HTTPException c d => d
  | ValueError m => m
  | OtherException _ m => m
  end.

(** [try: body except Exception as e: handler(e)] *)
Definition try_except {A} (body : result A) (handler : exn -> result A) : result A :=
  match body with
  | Ok a => Ok a
  | Raise e => handler e
  end.

Definition rbind {A B} (c : result A) (k : A -> result B) : result B :=
  match c with
  | Ok a => k a
  | Raise e => Raise e
  end.

Definition is_Ok {A} (r : result A) : bool :=
  match r with Ok _ => true | Raise _ => false end.

(** Truthiness of a [str]: [not s] holds exactly for the empty string. *)
Definition py_not (s : string) : bool :=
  match s with EmptyString => true | String _ _ => false end.

(** Truthiness of an [Optional[str]]: [None] and [""] are both falsy. *)
Definition py_not_opt (s : option string) : bool :=
  match s with None => true | Some s => py_not s end.

Definition str_of_Z (z : Z) : string := NilZero.string_of_int (Z.to_int z).

(** [sep.join(l)] *)
Fixpoint join (sep : string) (l : list string) : string :=
  match l with
  | [] => ""
  | [x] => x
  | x :: rest => x ++ sep ++ join sep rest
  end.

(** [v in allowed] for a list of strings *)
Definition str_in (v : string) (l : list string) : bool := existsb (String.eqb v) l.

(** [needle in s] for strings *)
Fixpoint contains (needle s : string) : bool :=
  if prefix needle s then true
  else match s with
       | EmptyString => false
       | String _ rest => contains needle rest
       end.

Definition is_space (c : ascii) : bool :=
  let n := N_of_ascii c in
  (((9 <=? n) && (n <=? 13)) || ((28 <=? n) && (n <=? 32))
   || (n =? 133) || (n =? 160))%N.

Fixpoint lstrip (s : string) : string :=
  match s with
  | String c rest => if is_space c then lstrip rest else s
  | EmptyString => EmptyString
  end.

Fixpoint rstrip (s : string) : string :=
  match s with
  | EmptyString => EmptyString
  | String c rest =>
      match rstrip rest with
      | EmptyString => if is_space c then EmptyString else String c EmptyString
      | r => String c r
      end
  end.

(** [s.strip()] *)
Definition strip (s : string) : string := rstrip (lstrip s).

(** [s.split(sep)[0]] for a one-character separator *)
Fixpoint split_head (sep : ascii) (s : string) : string :=
  match s with
  | EmptyString => EmptyString
  | String c rest => if Ascii.eqb c sep then EmptyString else String c (split_head sep rest)
  end.

(** [s.encode('utf-8')] on code points below 256 *)
Fixpoint encode_utf8 (s : string) : string :=
  match s with
  | EmptyString => EmptyString
  | String c rest =>
      let n := N_of_ascii c in
      if (n <? 128)%N then String c (encode_utf8 rest)
      else String (ascii_of_N (192 + n / 64)) (String (ascii_of_N (128 + n mod 64)) (encode_utf8 rest))
  end.

Definition is_ascii (s : string) : bool :=
  forallb (fun c => (N_of_ascii c <? 128)%N) (list_ascii_of_string s).

Definition is_hex_char (c : ascii) : bool :=
  let n := N_of_ascii c in
  (((48 <=? n) && (n <=? 57)) || ((97 <=? n) && (n <=? 102)))%N.

Definition is_hex (s : string) : bool :=
  forallb is_hex_char (list_ascii_of_string s).

Definition no_nul (s : string) : bool :=
  forallb (fun c => negb (N_of_ascii c =? 0)%N) (list_ascii_of_string s).

(** [b.decode('utf-8')] for byte strings that encode code points below 256;
    any other byte sequence is reported as a decoding error. *)
Fixpoint decode_utf8 (b : string) : result string :=
  match b with
  | EmptyString => Ok EmptyString
  | String c rest =>
      let n := N_of_ascii c in
      if (n <? 128)%N then
        match decode_utf8 rest with
        | Ok r => Ok (String c r)
        | Raise e => Raise e
        end
      else
        match rest with
        | String c2 rest2 =>
            let n2 := N_of_ascii c2 in
            if ((n =? 194) || (n =? 195))%N && (128 <=? n2)%N && (n2 <? 192)%N then
              match decode_utf8 rest2 with
              | Ok r => Ok (String (ascii_of_N ((n - 192) * 64 + (n2 - 128))) r)
              | Raise e => Raise e
              end
            else Raise (OtherException "UnicodeDecodeError" "invalid start byte")
        | EmptyString => Raise (OtherException "UnicodeDecodeError" "unexpected end of data")
        end
  end.

(** ** datetime *)

Definition datetime := Z.

Definition DATETIME_MAX : datetime := 315537897599999999.

Definition valid_datetime (d : datetime) : Prop := 0 <= d <= DATETIME_MAX.

(** [timedelta(minutes=m)] in microseconds *)
Definition timedelta_minutes (m : Z) : Z := m * 60000000.

(** [d + delta]; out of the representable range Python raises OverflowError *)
Definition datetime_add (d : datetime) (delta : Z) : result datetime :=
  let r := d + delta in
  if (0 <=? r) && (r <=? DATETIME_MAX) then Ok r
  else Raise (OtherException "OverflowError" "date value out of range").

(** [(a - b).days] *)
Definition days_between (a b : datetime) : Z := (a - b) / 86400000000.

(** ** Third-party libraries *)

Class Libs : Type := {
  (** [hashlib.sha256(b).hexdigest()] *)
  sha256_hexdigest : string -> string;
  (** [bcrypt.gensalt(rounds)], drawing on the given entropy *)
  bcrypt_gensalt : Z -> Z -> string;
  (** [bcrypt.hashpw(password, salt)] *)
  bcrypt_hashpw : string -> string -> result string;
  (** [bcrypt.checkpw(password, hashed)] *)
  bcrypt_checkpw : string -> string -> result bool;
  (** [jwt.encode({"sub": sub, "user_id": user_id, "exp": exp}, key, algorithm)] *)
  jwt_encode : string -> string -> datetime -> string -> string -> result string;
  (** pydantic's [EmailStr]: the normalised address, or a validation error *)
  validate_email : string -> result string;
  (** [datetime.strptime(s, '%Y-%m-%d')] *)
  strptime_ymd : string -> result datetime
}.

(** What the development assumes of hashlib and bcrypt: a SHA-256 hex digest
    is 64 hexadecimal digits; bcrypt accepts a password of at most 72 bytes
    without a NUL byte together with a salt it generated for a work factor
    between 4 and 31; a bcrypt hash is a non-empty ASCII string; and a
    password checks against its own hash. *)
Class LibsSpec (L : Libs) : Prop := {
  sha256_hexdigest_length : forall b, String.length (sha256_hexdigest b) = 64%nat;
  sha256_hexdigest_hex : forall b, is_hex (sha256_hexdigest b) = true;
  bcrypt_hashpw_gensalt : forall pw rounds entropy,
    no_nul pw = true -> (String.length pw <= 72)%nat -> 4 <= rounds <= 31 ->
    exists h, bcrypt_hashpw pw (bcrypt_gensalt rounds entropy) = Ok h;
  bcrypt_hashpw_ascii : forall pw salt h,
    bcrypt_hashpw pw salt = Ok h -> is_ascii h = true /\ h <> EmptyString;
  bcrypt_checkpw_hashpw : forall pw rounds entropy h,
    bcrypt_hashpw pw (bcrypt_gensalt rounds entropy) = Ok h ->
    bcrypt_checkpw pw h = Ok true
}.

(** ** utils/password.py *)

Module Password.
Section WithLibs.
Context {L : Libs}.

(** [password] is typed [str], so the [isinstance] test of the source
    always passes; [entropy] is what [bcrypt.gensalt] draws. *)
Definition hash_password (entropy : Z) (password : string) : result string :=
  if py_not password then Raise (ValueError "Password cannot be empty")
  else
    (* Pre-hash with SHA256 to ensure consistent length *)
    let sha256_hash := sha256_hexdigest (encode_utf8 password) in
    try_except
      (let salt := bcrypt_gensalt 12 entropy in
       rbind (bcrypt_hashpw (encode_utf8 sha256_hash) salt) (fun bcrypt_hash =>
       rbind (decode_utf8 bcrypt_hash) (fun hash_string =>
       Ok hash_string)))
      (fun e => Raise (ValueError ("Password hashing failed: " ++ str_exn e))).

Definition verify_password (plain_password hashed_password : string) : result bool :=
  if py_not plain_password || py_not hashed_password then Ok false
  else
    try_except
      (let sha256_hash := sha256_hexdigest (encode_utf8 plain_password) in
       rbind (bcrypt_checkpw (encode_utf8 sha256_hash) (encode_utf8 hashed_password))
             (fun result => Ok result))
      (fun e => Ok false).

End WithLibs.
End Password.

(** ** models/user.py *)

Module User.
Record t : Type := mk {
  id : option nat;
  email : string;
  full_name : string;
  date_of_birth : option datetime;
  organization_type : string;
  organization_name : option string;
  hashed_password : option string;
  google_id : option string;
  is_email_verified : bool;
  is_active : bool;
  is_superuser : bool;
  created_at : datetime;
  updated_at : option datetime
}.

Definition with_id (i : option nat) (u : t) : t :=
  mk i (email u) (full_name u) (date_of_birth u) (organization_type u)
     (organization_name u) (hashed_password u) (google_id u)
     (is_email_verified u) (is_active u) (is_superuser u) (created_at u)
     (updated_at u).

Definition with_google_id (g : option string) (u : t) : t :=
  mk (id u) (email u) (full_name u) (date_of_birth u) (organization_type u)
     (organization_name u) (hashed_password u) g
     (is_email_verified u) (is_active u) (is_superuser u) (created_at u)
     (updated_at u).
End User.

Module PendingUser.
Record t : Type := mk {
  id : option nat;
  email : string;
  full_name : string;
  date_of_birth : datetime;
  organization_type : string;
  organization_name : option string;
  hashed_password : string;
  otp_code : string;
  otp_created_at : datetime;
  otp_attempts : Z;
  created_at : datetime
}.

Definition with_id (i : option nat) (p : t) : t :=
  mk i (email p) (full_name p) (date_of_birth p) (organization_type p)
     (organization_name p) (hashed_password p) (otp_code p)
     (otp_created_at p) (otp_attempts p) (created_at p).

Definition with_otp_attempts (n : Z) (p : t) : t :=
  mk (id p) (email p) (full_name p) (date_of_birth p) (organization_type p)
     (organization_name p) (hashed_password p) (otp_code p)
     (otp_created_at p) n (created_at p).

(** The three assignments of resend_otp. *)
Definition with_otp (code : string) (at_ : datetime) (n : Z) (p : t) : t :=
  mk (id p) (email p) (full_name p) (date_of_birth p) (organization_type p)
     (organization_name p) (hashed_password p) code at_ n (created_at p).

(** [utcnow] is the value of [datetime.utcnow()] at the call. *)
Definition is_otp_expired (utcnow : datetime) (self : t) (expiry_minutes : Z) : result bool :=
  rbind (datetime_add (otp_created_at self) (timedelta_minutes expiry_minutes))
        (fun expiry_time => Ok (expiry_time <? utcnow)).

Definition is_locked (self : t) (max_attempts : Z) : bool :=
  max_attempts <=? otp_attempts self.
End PendingUser.

(** ** models/schemas.py *)

Module Schemas.

Record SignupRequest : Type := mkSignupRequest {
  full_name : string;
  email : string;
  date_of_birth : string;
  organization_type : string;
  organization_name : option string;
  password : string;
  confirm_password : string
}.

Record VerifyOTPRequest : Type := mkVerifyOTPRequest {
  verify_email : string;
  otp : string
}.

Record ResendOTPRequest : Type := mkResendOTPRequest {
  resend_email : string
}.

Record LoginRequest : Type := mkLoginRequest {
  login_email : string;
  login_password : string
}.

(** The outcome of building a model from a request body: the validated
    model, or pydantic's ValidationError with one entry per failing field. *)
Inductive validation (A : Type) : Type :=
| Valid (a : A)
| ValidationError (errors : list (string * string)).
Arguments Valid {A} a.
Arguments ValidationError {A} errors.

Definition allowed_organization_types : list string :=
  ["law_firm"; "corporate"; "government"; "ngo"; "individual"; "student"; "other"].

Definition validate_organization_type (v : string) : result string :=
  let allowed := allowed_organization_types in
  if negb (str_in v allowed) then
    Raise (ValueError ("organization_type must be one of: " ++ join ", " allowed))
  else Ok v.

(** [password] is [info.data.get('password')]: present only when the
    password field itself validated. *)
Definition passwords_match (v : string) (password : option string) : result string :=
  match password with
  | Some p => if negb (String.eqb v p) then Raise (ValueError "Passwords do not match") else Ok v
  | None => Ok v
  end.

(** [Field(min_length, max_length)] on a [str] *)
Definition constrained_str (min_length max_length : option nat) (v : string) : result string :=
  let n := String.length v in
  match min_length with
  | Some lo =>
      if (n <? lo)%nat then
        Raise (ValueError ("String should have at least " ++ str_of_Z (Z.of_nat lo) ++ " characters"))
      else
        match max_length with
        | Some hi =>
            if (hi <? n)%nat then
              Raise (ValueError ("String should have at most " ++ str_of_Z (Z.of_nat hi) ++ " characters"))
            else Ok v
        | None => Ok v
        end
  | None =>
      match max_length with
      | Some hi =>
          if (hi <? n)%nat then
            Raise (ValueError ("String should have at most " ++ str_of_Z (Z.of_nat hi) ++ " characters"))
          else Ok v
      | None => Ok v
      end
  end.

Definition check_field {A} (loc : string) (r : result A) : list (string * string) :=
  match r with
  | Ok _ => []
  | Raise e => [(loc, str_exn e)]
  end.

Definition validated {A} (r : result A) : option A :=
  match r with Ok a => Some a | Raise _ => None end.

Section WithLibs.
Context {L : Libs}.

(** [except ValueError as e] lets every other exception through. *)
Definition validate_date_of_birth (now : datetime) (v : string) : result string :=
  match
    rbind (strptime_ymd v) (fun dob =>
      (* age = (datetime.now() - dob).days / 365.25, compared exactly *)
      let days := days_between now dob in
      if 4 * days <? 18 * 1461 then Raise (ValueError "You must be at least 18 years old")
      else if 120 * 1461 <? 4 * days then Raise (ValueError "Invalid date of birth")
      else Ok v)
  with
  | Ok r => Ok r
  | Raise (ValueError m) =>
      if contains "does not match format" m then Raise (ValueError "Date format must be YYYY-MM-DD")
      else Raise (ValueError m)
  | Raise e => Raise e
  end.

(** [SignupRequest] built from a request body: every field is validated, in the order of
    declaration, and the errors are collected. *)
Definition validate_SignupRequest (now : datetime) (body : SignupRequest)
  : validation SignupRequest :=
  let r_full_name := constrained_str (Some 2%nat) (Some 100%nat) (full_name body) in
  let r_email := validate_email (email body) in
  let r_date_of_birth := validate_date_of_birth now (date_of_birth body) in
  let r_organization_type := validate_organization_type (organization_type body) in
  let r_organization_name :=
    match organization_name body with
    | None => Ok None
    | Some n => rbind (constrained_str None (Some 200%nat) n) (fun n' => Ok (Some n'))
    end in
  let r_password := constrained_str (Some 10%nat) None (password body) in
  let r_confirm_password := passwords_match (confirm_password body) (validated r_password) in
  match r_full_name, r_email, r_date_of_birth, r_organization_type,
        r_organization_name, r_password, r_confirm_password with
  | Ok a, Ok b, Ok c, Ok d, Ok e, Ok f, Ok g => Valid (mkSignupRequest a b c d e f g)
  | _, _, _, _, _, _, _ =>
      ValidationError
        (check_field "full_name" r_full_name ++ check_field "email" r_email
         ++ check_field "date_of_birth" r_date_of_birth
         ++ check_field "organization_type" r_organization_type
         ++ check_field "organization_name" r_organization_name
         ++ check_field "password" r_password
         ++ check_field "confirm_password" r_confirm_password)
  end.

End WithLibs.
End Schemas.

(** ** services/email_services.py *)

Module EmailServices.

(** [random.randint(a, b)] drawing on [r] *)
Definition randint (a b : Z) (r : Z) : Z := a + r mod (b - a + 1).

(** [''.join([str(random.randint(0, 9)) for _ in range(6)])]; [random i]
    is the entropy of the i-th draw. *)
Definition generate_otp (random : nat -> Z) : string :=
  join "" (map (fun i => str_of_Z (randint 0 9 (random i))) (seq 0 6)).

(** The whole body of sending is under [try]; [sendgrid] is the outcome of
    building and posting the message. *)
Definition send_otp_email (sendgrid : result unit) (to_email full_name otp : string) : bool :=
  match try_except (rbind sendgrid (fun _ => Ok true)) (fun e => Ok false) with
  | Ok b => b
  | Raise _ => false
  end.

End EmailServices.

(** ** The document store (beanie over MongoDB) *)

(** What a handler did to the outside world, most recent first. *)
Inductive Event : Type :=
| EvFindUser (email : string)
| EvFindPending (email : string)
| EvInsertUser (email : string)
| EvSaveUser (email : string)
| EvInsertPending (email : string)
| EvSavePending (email : string)
| EvDeletePending (email : string)
| EvHashPassword
| EvSendEmail (to_email otp : string) (sent : bool).

Record World : Type := mkWorld {
  users : list User.t;
  pending_users : list PendingUser.t;
  next_id : nat;
  trace : list Event
}.

Definition empty_world : World := mkWorld [] [] 0 [].

Definition id_eqb (a b : option nat) : bool :=
  match a, b with
  | Some x, Some y => Nat.eqb x y
  | None, None => true
  | _, _ => false
  end.

Section Collection.
Context {D : Type} (get_id : D -> option nat).

(** [replace_one({"_id": d.id}, d)] *)
Definition replace_by_id (d : D) (l : list D) : list D :=
  map (fun x => if id_eqb (get_id x) (get_id d) then d else x) l.

(** [delete_one({"_id": d.id})] *)
Definition delete_by_id (d : D) (l : list D) : list D :=
  filter (fun x => negb (id_eqb (get_id x) (get_id d))) l.

Definition has_id (d : D) (l : list D) : bool :=
  existsb (fun x => id_eqb (get_id x) (get_id d)) l.
End Collection.

(** ** Request handlers as stateful computations *)

Definition M (A : Type) : Type := World -> result A * World.

Definition ret {A} (a : A) : M A := fun w => (Ok a, w).

Definition raise {A} (e : exn) : M A := fun w => (Raise e, w).

Definition lift {A} (r : result A) : M A := fun w => (r, w).

Definition bind {A B} (c : M A) (k : A -> M B) : M B :=
  fun w =>
    match c w with
    | (Ok a, w') => k a w'
    | (Raise e, w') => (Raise e, w')
    end.

(** [try: body except Exception as e: handler(e)]: the handler runs in the
    world the body left behind. *)
Definition try_catch {A} (body : M A) (handler : exn -> M A) : M A :=
  fun w =>
    match body w with
    | (Ok a, w') => (Ok a, w')
    | (Raise e, w') => handler e w'
    end.

Definition log (ev : Event) : M unit :=
  fun w => (Ok tt, mkWorld (users w) (pending_users w) (next_id w) (ev :: trace w)).

Declare Scope handler_scope.
Delimit Scope handler_scope with handler.
Notation "x <- c ;; k" := (bind c (fun x => k))
  (at level 61, c at next level, right associativity) : handler_scope.
Notation "c ;; k" := (bind c (fun _ => k))
  (at level 61, right associativity) : handler_scope.
Local Open Scope handler_scope.

Module Users.
(** The first document whose email field equals [email]. *)
Definition lookup (email : string) (l : list User.t) : option User.t :=
  find (fun u => String.eqb (User.email u) email) l.

Definition find_one (email : string) : M (option User.t) :=
  log (EvFindUser email) ;;
  fun w => (Ok (lookup email (users w)), w).

Definition insert (u : User.t) : M User.t :=
  log (EvInsertUser (User.email u)) ;;
  fun w =>
    let u' := User.with_id (Some (next_id w)) u in
    (Ok u', mkWorld (users w ++ [u']) (pending_users w) (S (next_id w)) (trace w)).

Definition save (u : User.t) : M User.t :=
  match User.id u with
  | None => insert u
  | Some _ =>
      log (EvSaveUser (User.email u)) ;;
      fun w =>
        let l := if has_id User.id u (users w)
                 then replace_by_id User.id u (users w)
                 else (users w ++ [u])%list in
        (Ok u, mkWorld l (pending_users w) (next_id w) (trace w))
  end.
End Users.

Module Pending.
Definition lookup (email : string) (l : list PendingUser.t) : option PendingUser.t :=
  find (fun p => String.eqb (PendingUser.email p) email) l.

Definition find_one (email : string) : M (option PendingUser.t) :=
  log (EvFindPending email) ;;
  fun w => (Ok (lookup email (pending_users w)), w).

Definition insert (p : PendingUser.t) : M PendingUser.t :=
  log (EvInsertPending (PendingUser.email p)) ;;
  fun w =>
    let p' := PendingUser.with_id (Some (next_id w)) p in
    (Ok p', mkWorld (users w) (pending_users w ++ [p']) (S (next_id w)) (trace w)).

Definition save (p : PendingUser.t) : M PendingUser.t :=
  match PendingUser.id p with
  | None => insert p
  | Some _ =>
      log (EvSavePending (PendingUser.email p)) ;;
      fun w =>
        let l := if has_id PendingUser.id p (pending_users w)
                 then replace_by_id PendingUser.id p (pending_users w)
                 else (pending_users w ++ [p])%list in
        (Ok p, mkWorld (users w) l (next_id w) (trace w))
  end.

Definition delete (p : PendingUser.t) : M unit :=
  log (EvDeletePending (PendingUser.email p)) ;;
  fun w =>
    (Ok tt, mkWorld (users w) (delete_by_id PendingUser.id p (pending_users w))
                    (next_id w) (trace w)).
End Pending.

(** ** routers/auth.py *)

(** Process-wide configuration read from the environment at import time. *)
Class Config : Type := {
  BACKEND_URL : string;
  FRONTEND_URL : string;
  SECRET_KEY : string
}.

Definition ALGORITHM : string := "HS256".
Definition ACCESS_TOKEN_EXPIRE_MINUTES : Z := 60.

(** What one request observes outside the store: the clock, the random
    draws of the OTP generator and of the salt, and whether the mail
    provider accepted the message. *)
Record Env : Type := mkEnv {
  utcnow : datetime;
  random : nat -> Z;
  entropy : Z;
  sendgrid : result unit
}.

(** The same request with another outcome of the mail provider. *)
Definition mail_outcome (mail : result unit) (env : Env) : Env :=
  mkEnv (utcnow env) (random env) (entropy env) mail.

(** The claims read from a decoded id token ([user_data.get]). *)
Record Claims : Type := mkClaims {
  claim_email : option string;
  claim_sub : option string;
  claim_name : option string;
  claim_given_name : option string;
  claim_family_name : option string
}.

(** The identity provider, as one callback sees it: the code exchange
    (yielding [token.get("id_token")]) and the unverified decoding of an id
    token. *)
Record Provider : Type := mkProvider {
  get_access_token : string -> result (option string);
  jwt_decode : string -> result Claims
}.

Inductive Response : Type :=
| MessageResponse (message email : string) (expires_in_minutes : Z)
| TokenResponse (message : option string) (access_token token_type : string)
                (user_email user_full_name user_organization_type : string)
| RedirectResponse (url : string).

Definition str_of_id (i : option nat) : string :=
  match i with
  | Some n => str_of_Z (Z.of_nat n)
  | None => "None"
  end.

Definition get_default (o : option string) (default : string) : string :=
  match o with Some s => s | None => default end.

Module Auth.
Section WithLibs.
Context {L : Libs} {C : Config}.

(** [User(...)] as verify_otp builds it; pydantic validates the address. *)
Definition new_User (now : datetime) (email full_name : string)
    (date_of_birth : option datetime) (organization_type : string)
    (organization_name hashed_password google_id : option string)
    (is_email_verified is_active is_superuser : bool) : result User.t :=
  rbind (validate_email email) (fun email' =>
    Ok (User.mk None email' full_name date_of_birth organization_type
          organization_name hashed_password google_id
          is_email_verified is_active is_superuser now None)).

(** [PendingUser(...)] as signup builds it. *)
Definition new_PendingUser (now : datetime) (email full_name : string)
    (date_of_birth : datetime) (organization_type : string)
    (organization_name : option string) (hashed_password otp_code : string)
    (otp_created_at : datetime) (otp_attempts : Z) : result PendingUser.t :=
  rbind (validate_email email) (fun email' =>
    Ok (PendingUser.mk None email' full_name date_of_birth organization_type
          organization_name hashed_password otp_code otp_created_at
          otp_attempts now)).

Definition create_access_token (now : datetime) (sub user_id : string) : result string :=
  rbind (datetime_add now (timedelta_minutes ACCESS_TOKEN_EXPIRE_MINUTES)) (fun expire =>
    jwt_encode sub user_id expire SECRET_KEY ALGORITHM).

Definition send_otp_email (env : Env) (to_email full_name otp : string) : M bool :=
  let sent := EmailServices.send_otp_email (sendgrid env) to_email full_name otp in
  log (EvSendEmail to_email otp sent) ;;
  ret sent.

(** [except HTTPException: raise] followed by [except Exception as e] *)
Definition reraise_http (other : exn -> exn) (e : exn) : M Response :=
  match e with
  | HTTPException _ _ => raise e
  | _ => raise (other e)
  end.

Definition signup (env : Env) (signup_data : Schemas.SignupRequest) : M Response :=
  try_catch
    ((* Check if user already exists in main User collection *)
     existing_user <- Users.find_one (Schemas.email signup_data) ;;
     match existing_user with
     | Some _ =>
         raise (HTTPException 400 "Email already registered. Please login or use a different email.")
     | None =>
     (* Check if there's a pending verification for this email *)
     pending_user <- Pending.find_one (Schemas.email signup_data) ;;
     (* Parse date of birth *)
     dob <- lift (match strptime_ymd (Schemas.date_of_birth signup_data) with
                  | Ok d => Ok d
                  | Raise (ValueError _) =>
                      Raise (HTTPException 400 "Invalid date format. Expected YYYY-MM-DD")
                  | Raise e => Raise e
                  end) ;;
     (* Hash password *)
     log EvHashPassword ;;
     hashed_pwd <- lift (try_except
                     (Password.hash_password (entropy env) (Schemas.password signup_data))
                     (fun e => Raise (HTTPException 400 ("Failed to hash password: " ++ str_exn e)))) ;;
     (* Generate OTP *)
     let otp_code := EmailServices.generate_otp (random env) in
     pending_user <-
       match pending_user with
       | Some p =>
           (* Update existing pending user *)
           Pending.save
             (PendingUser.mk (PendingUser.id p) (PendingUser.email p)
                (Schemas.full_name signup_data) dob
                (Schemas.organization_type signup_data)
                (Schemas.organization_name signup_data)
                hashed_pwd otp_code (utcnow env) 0 (PendingUser.created_at p))
       | None =>
           (* Create new pending user *)
           p <- lift (new_PendingUser (utcnow env) (Schemas.email signup_data)
                        (Schemas.full_name signup_data) dob
                        (Schemas.organization_type signup_data)
                        (Schemas.organization_name signup_data)
                        hashed_pwd otp_code (utcnow env) 0) ;;
           Pending.insert p
       end ;;
     (* Send OTP email; a failure is only printed *)
     email_sent <- send_otp_email env (PendingUser.email pending_user)
                     (PendingUser.full_name pending_user) otp_code ;;
     ret (MessageResponse
            "OTP sent successfully! Please check your email to verify your account."
            (PendingUser.email pending_user) 10)
     end)
    (reraise_http (fun e => HTTPException 400 ("Signup failed: " ++ str_exn e))).

Definition verify_otp (env : Env) (verification : Schemas.VerifyOTPRequest) : M Response :=
  try_catch
    ((* Find pending user *)
     pending_user <- Pending.find_one (Schemas.verify_email verification) ;;
     match pending_user with
     | None => raise (HTTPException 404 "No pending verification found. Please sign up again.")
     | Some pending_user =>
     (* Check if OTP is expired *)
     expired <- lift (PendingUser.is_otp_expired (utcnow env) pending_user 10) ;;
     if expired : bool then
       Pending.delete pending_user ;;
       raise (HTTPException 400 "OTP has expired. Please sign up again.")
     else
     (* Check if account is locked *)
     if PendingUser.is_locked pending_user 5 then
       raise (HTTPException 429 "Too many failed attempts. Please sign up again.")
     else
     (* Verify OTP *)
     if negb (String.eqb (PendingUser.otp_code pending_user) (Schemas.otp verification)) then
       pending_user <- Pending.save
         (PendingUser.with_otp_attempts (PendingUser.otp_attempts pending_user + 1) pending_user) ;;
       let remaining_attempts := 5 - PendingUser.otp_attempts pending_user in
       raise (HTTPException 400
                ("Invalid OTP. " ++ str_of_Z remaining_attempts ++ " attempts remaining."))
     else
     (* Create actual user account *)
     user <- lift (new_User (utcnow env)
                     (PendingUser.email pending_user)
                     (PendingUser.full_name pending_user)
                     (Some (PendingUser.date_of_birth pending_user))
                     (PendingUser.organization_type pending_user)
                     (PendingUser.organization_name pending_user)
                     (Some (PendingUser.hashed_password pending_user))
                     None true true false) ;;
     user <- Users.insert user ;;
     (* Delete pending user *)
     Pending.delete pending_user ;;
     (* Create access token *)
     access_token <- lift (create_access_token (utcnow env) (User.email user)
                             (str_of_id (User.id user))) ;;
     ret (TokenResponse (Some "Email verified successfully! Welcome to KAANOONGPT!")
            access_token "bearer"
            (User.email user) (User.full_name user) (User.organization_type user))
     end)
    (reraise_http (fun _ => HTTPException 400 "Email verification failed")).

Definition resend_otp (env : Env) (resend_data : Schemas.ResendOTPRequest) : M Response :=
  try_catch
    ((* Find pending user *)
     pending_user <- Pending.find_one (Schemas.resend_email resend_data) ;;
     match pending_user with
     | None => raise (HTTPException 404 "No pending verification found. Please sign up again.")
     | Some pending_user =>
     (* Generate new OTP *)
     let new_otp := EmailServices.generate_otp (random env) in
     (* Update pending user with new OTP *)
     pending_user <- Pending.save (PendingUser.with_otp new_otp (utcnow env) 0 pending_user) ;;
     (* Send OTP email *)
     email_sent <- send_otp_email env (PendingUser.email pending_user)
                     (PendingUser.full_name pending_user) new_otp ;;
     if negb email_sent then
       raise (HTTPException 500 "Failed to send OTP email. Please try again.")
     else
     ret (MessageResponse "New OTP sent successfully! Please check your email."
            (PendingUser.email pending_user) 10)
     end)
    (reraise_http (fun _ => HTTPException 400 "Failed to resend OTP")).

Definition login (env : Env) (login_data : Schemas.LoginRequest) : M Response :=
  try_catch
    ((* Find user *)
     user <- Users.find_one (Schemas.login_email login_data) ;;
     match user with
     | None => raise (HTTPException 401 "Invalid email or password")
     | Some user =>
     if py_not_opt (User.hashed_password user) then
       raise (HTTPException 401 "Invalid email or password")
     else
     (* Verify password *)
     ok <- lift (Password.verify_password (Schemas.login_password login_data)
                   (get_default (User.hashed_password user) "")) ;;
     if negb ok then raise (HTTPException 401 "Invalid email or password")
     else
     (* Check if email is verified *)
     if negb (User.is_email_verified user) then
       raise (HTTPException 403 "Please verify your email before logging in")
     else
     (* Check if account is active *)
     if negb (User.is_active user) then
       raise (HTTPException 403 "Account is inactive")
     else
     (* Create access token *)
     access_token <- lift (create_access_token (utcnow env) (User.email user)
                             (str_of_id (User.id user))) ;;
     ret (TokenResponse None access_token "bearer"
            (User.email user) (User.full_name user) (User.organization_type user))
     end)
    (reraise_http (fun _ => HTTPException 400 "Login failed")).

(** The [try] block of google_callback. *)
Definition google_callback_body (env : Env) (idp : Provider) (code : string) : M Response :=
  (* Exchange code for access token *)
  id_token <- lift (get_access_token idp code) ;;
  (* Decode the id_token to get user info *)
  if py_not_opt id_token then raise (HTTPException 400 "No id_token in response")
  else
  user_data <- lift (jwt_decode idp (get_default id_token "")) ;;
  let email := claim_email user_data in
  let google_id := claim_sub user_data in
  (* Extract full name *)
  let full_name := get_default (claim_name user_data) "" in
  let full_name :=
    if py_not full_name then
      let first_name := get_default (claim_given_name user_data) "" in
      let last_name := get_default (claim_family_name user_data) "" in
      strip (first_name ++ " " ++ last_name)
    else full_name in
  full_name <- lift (if py_not full_name then
                       match email with
                       | Some e => Ok (split_head "@"%char e)
                       | None => Raise (OtherException "AttributeError"
                                          "'NoneType' object has no attribute 'split'")
                       end
                     else Ok full_name) ;;
  if py_not_opt email || py_not_opt google_id then
    raise (HTTPException 400 "Missing email or google_id")
  else
  let email := get_default email "" in
  (* Check if user exists *)
  user <- Users.find_one email ;;
  user <-
    match user with
    | None =>
        (* Create new user from Google *)
        u <- lift (new_User (utcnow env) email full_name None "individual" None None
                     google_id true true false) ;;
        Users.insert u
    | Some user =>
        (* User exists - just update google_id if needed *)
        if py_not_opt (User.google_id user) then
          Users.save (User.with_google_id google_id user)
        else ret user
    end ;;
  (* Create JWT token *)
  access_token <- lift (create_access_token (utcnow env) (User.email user)
                          (str_of_id (User.id user))) ;;
  (* Redirect to frontend with token *)
  ret (RedirectResponse (FRONTEND_URL ++ "/auth/callback?token=" ++ access_token)).

Definition google_callback (env : Env) (idp : Provider) (code : string) : M Response :=
  try_catch (google_callback_body env idp code)
    (fun e => ret (RedirectResponse (FRONTEND_URL ++ "/auth/login?error=authentication_failed"))).

End WithLibs.
End Auth.

(** ** The HTTP surface of POST /auth/signup

    FastAPI builds the handler's argument from the request body before it
    calls the handler: a body that fails validation is answered with status
    422 and the handler never runs. An [HTTPException] becomes a response
    with its status code. *)

Inductive HTTPReply : Type :=
| Reply (status : Z) (body : Response)
| ErrorReply (status : Z) (detail : string)
| ValidationReply (status : Z) (errors : list (string * string)).

Definition reply_of (r : result Response) : HTTPReply :=
  match r with
  | Ok body => Reply 200 body
  | Raise (HTTPException status detail) => ErrorReply status detail
  | Raise _ => ErrorReply 500 "Internal Server Error"
  end.

Definition status_of (r : HTTPReply) : Z :=
  match r with
  | Reply s _ => s
  | ErrorReply s _ => s
  | ValidationReply s _ => s
  end.

Section Endpoints.
Context {L : Libs} {C : Config}.

(** [now] is [datetime.now()] as the date-of-birth validator reads it. *)
Definition post_signup (now : datetime) (env : Env) (body : Schemas.SignupRequest)
  : World -> HTTPReply * World :=
  fun w =>
    match Schemas.validate_SignupRequest now body with
    | Schemas.ValidationError errors => (ValidationReply 422 errors, w)
    | Schemas.Valid signup_data =>
        let (r, w') := Auth.signup env signup_data w in
        (reply_of r, w')
    end.
End Endpoints.

(** ** Executable stand-ins for the libraries

    Small total functions with the interface of [Libs], used to run the
    handlers on concrete requests. They are not SHA-256 or bcrypt: the
    theorems below hold for every instance of [Libs] (and, where stated, of
    [LibsSpec]); this instance shows that the assumptions of [LibsSpec] can
    be met and lets scenarios be evaluated. *)

Module Stub.

Fixpoint string_repeat (n : nat) (c : ascii) : string :=
  match n with
  | O => EmptyString
  | S n' => String c (string_repeat n' c)
  end.

Definition hex_digit (n : nat) : ascii :=
  match n with
  | 0 => "0" | 1 => "1" | 2 => "2" | 3 => "3" | 4 => "4" | 5 => "5"
  | 6 => "6" | 7 => "7" | 8 => "8" | 9 => "9" | 10 => "a" | 11 => "b"
  | 12 => "c" | 13 => "d" | 14 => "e" | _ => "f"
  end%nat%char.

Fixpoint checksum (b : string) : nat :=
  match b with
  | EmptyString => 0
  | String c rest => (nat_of_ascii c + checksum rest) mod 16
  end%nat.

Definition sha256_hexdigest (b : string) : string :=
  string_repeat 64 (hex_digit (checksum b)).

Definition gensalt (rounds entropy : Z) : string :=
  "$2b$" ++ str_of_Z rounds ++ "$" ++ str_of_Z entropy.

Definition hashpw (password salt : string) : result string :=
  if prefix "$2b$" salt then
    if is_ascii password then Ok ("$2b$" ++ password)
    else Ok "$2b$"
  else Raise (ValueError "Invalid salt").

Definition checkpw (password hashed : string) : result bool :=
  rbind (hashpw password hashed) (fun h => Ok (String.eqb h hashed)).

Definition jwt_encode (sub user_id : string) (exp : datetime) (key algorithm : string)
  : result string :=
  Ok ("jwt." ++ sub ++ "." ++ user_id ++ "." ++ str_of_Z exp).

Definition validate_email (v : string) : result string :=
  if contains "@" v then Ok v
  else Raise (ValueError "value is not a valid email address").

Definition digit_value (c : ascii) : option Z :=
  let n := Z.of_N (N_of_ascii c) in
  if (48 <=? n) && (n <=? 57) then Some (n - 48) else None.

Fixpoint number (acc : Z) (s : string) : option Z :=
  match s with
  | EmptyString => Some acc
  | String c rest =>
      match digit_value c with
      | Some d => number (10 * acc + d) rest
      | None => None
      end
  end.

Definition is_leap (y : Z) : bool :=
  ((y mod 4 =? 0) && negb (y mod 100 =? 0)) || (y mod 400 =? 0).

Definition days_before_month (y m : Z) : Z :=
  nth (Z.to_nat (m - 1)) [0; 31; 59; 90; 120; 151; 181; 212; 243; 273; 304; 334] 0
  + (if (2 <? m) && is_leap y then 1 else 0).

Definition ymd2ord (y m d : Z) : Z :=
  (y - 1) * 365 + (y - 1) / 4 - (y - 1) / 100 + (y - 1) / 400
  + days_before_month y m + d.

(** Accepts exactly YYYY-MM-DD with a month in 1..12 and a day in 1..31. *)
Definition strptime_ymd (s : string) : result datetime :=
  let bad := Raise (ValueError ("time data does not match format '%Y-%m-%d'")) in
  if negb (Nat.eqb (String.length s) 10) then bad
  else if negb (String.eqb (substring 4 1 s) "-" && String.eqb (substring 7 1 s) "-") then bad
  else
    match number 0 (substring 0 4 s), number 0 (substring 5 2 s), number 0 (substring 8 2 s) with
    | Some y, Some m, Some d =>
        if (1 <=? y) && (1 <=? m) && (m <=? 12) && (1 <=? d) && (d <=? 31)
        then Ok ((ymd2ord y m d - 1) * 86400000000)
        else Raise (ValueError "day is out of range for month")
    | _, _, _ => bad
    end.

#[export] Instance libs : Libs := {
  sha256_hexdigest := sha256_hexdigest;
  bcrypt_gensalt := gensalt;
  bcrypt_hashpw := hashpw;
  bcrypt_checkpw := checkpw;
  jwt_encode := jwt_encode;
  validate_email := validate_email;
  strptime_ymd := strptime_ymd
}.

#[export] Instance config : Config := {
  BACKEND_URL := "http://localhost:8000";
  FRONTEND_URL := "http://localhost:3000";
  SECRET_KEY := "secret"
}.

End Stub.

(** ** Scenarios

    Concrete requests served from the empty store, with the stand-ins of
    [Stub] for the libraries. *)

Module Scenario.

Definition t0 : datetime := (Stub.ymd2ord 2025 1 1 - 1) * 86400000000.

(** The OTP generator draws 1, 2, ..., 6. *)
Definition env_at (now : datetime) (mail : result unit) : Env :=
  mkEnv now (fun i => Z.of_nat i + 1) 7 mail.

Definition asha : Schemas.SignupRequest :=
  Schemas.mkSignupRequest "Asha Rao" "a@x.com" "1990-01-01" "student" None
    "longpassword1" "longpassword1".

Definition good_code : Schemas.VerifyOTPRequest :=
  Schemas.mkVerifyOTPRequest "a@x.com" "123456".

Definition bad_code : Schemas.VerifyOTPRequest :=
  Schemas.mkVerifyOTPRequest "a@x.com" "000000".

Definition signup (env : Env) (d : Schemas.SignupRequest) : M Response :=
  Auth.signup (L := Stub.libs) env d.

Definition verify_otp (env : Env) (v : Schemas.VerifyOTPRequest) : M Response :=
  Auth.verify_otp (L := Stub.libs) (C := Stub.config) env v.

Definition resend_otp (env : Env) (r : Schemas.ResendOTPRequest) : M Response :=
  Auth.resend_otp env r.

Definition login (env : Env) (l : Schemas.LoginRequest) : M Response :=
  Auth.login (L := Stub.libs) (C := Stub.config) env l.

Definition google_callback (env : Env) (idp : Provider) (code : string) : M Response :=
  Auth.google_callback (L := Stub.libs) (C := Stub.config) env idp code.

(** Asha has signed up and not yet confirmed. *)
Definition after_signup : World :=
  snd (signup (env_at t0 (Ok tt)) asha empty_world).

Fixpoint wrong_attempts (n : nat) (w : World) : World :=
  match n with
  | O => w
  | S n' => wrong_attempts n' (snd (verify_otp (env_at (t0 + 60000000) (Ok tt)) bad_code w))
  end.

(** One minute later she has entered a wrong code four times. *)
Definition four_failures : World := wrong_attempts 4 after_signup.

(** Google vouches for the same address. *)
Definition google : Provider :=
  mkProvider
    (fun code => Ok (Some "id-token"))
    (fun id_token =>
       Ok (mkClaims (Some "a@x.com") (Some "google-sub-1") (Some "Asha Rao") None None)).

(** Her pending registration, as stored, after the given number of
    failed attempts. *)
Definition asha_pending (attempts : Z) : PendingUser.t :=
  PendingUser.mk (Some 0%nat) "a@x.com" "Asha Rao" 62766748800000000 "student" None
    "$2b$4444444444444444444444444444444444444444444444444444444444444444"
    "123456" t0 attempts t0.

Definition later : Env := env_at (t0 + 120000000) (Ok tt).

(** Eleven minutes after the signup. *)
Definition too_late : Env := env_at (t0 + 660000000) (Ok tt).

(** After signing up, Asha logs in with Google before confirming. *)
Definition after_google : World :=
  snd (google_callback (env_at (t0 + 60000000) (Ok tt)) google "auth-code" after_signup).

(** The mail provider refuses the message. *)
Definition mail_down : Env :=
  env_at (t0 + 120000000) (Raise (OtherException "HTTPError" "HTTP Error 401: Unauthorized")).

Definition asha_resend : Schemas.ResendOTPRequest :=
  Schemas.mkResendOTPRequest "a@x.com".

Definition unknown_login : Schemas.LoginRequest :=
  Schemas.mkLoginRequest "nobody@x.com" "longpassword1".

Definition wrong_password_login : Schemas.LoginRequest :=
  Schemas.mkLoginRequest "a@x.com" "not-her-password".

(** Asha has confirmed her address. *)
Definition after_verify : World :=
  snd (verify_otp (env_at (t0 + 60000000) (Ok tt)) good_code after_signup).

Definition asha_user : User.t :=
  User.mk (Some 1%nat) "a@x.com" "Asha Rao" (Some 62766748800000000) "student" None
    (Some "$2b$4444444444444444444444444444444444444444444444444444444444444444")
    None true true false (t0 + 60000000) None.

End Scenario.

(** ** Invariants of the store and the reachable worlds *)

(** At most one pending registration, and at most one Identity, per email. *)
Definition pending_unique (w : World) : Prop :=
  NoDup (map PendingUser.email (pending_users w)).


(** Every stored document carries an identifier the store has issued, and
    no two documents of a collection share one. *)
Definition ids_fresh {D : Type} (get_id : D -> option nat) (bound : nat) (l : list D) : Prop :=
  forall d, In d l -> exists n, get_id d = Some n /\ (n < bound)%nat.

Definition ids_ok (w : World) : Prop :=
  ids_fresh User.id (next_id w) (users w)
  /\ NoDup (map User.id (users w))
  /\ ids_fresh PendingUser.id (next_id w) (pending_users w)
  /\ NoDup (map PendingUser.id (pending_users w)).

(** The invariant every request preserves. *)
Definition store_ok (w : World) : Prop := ids_ok w /\ pending_unique w.

Definition with_trace (t : list Event) (w : World) : World :=
  mkWorld (users w) (pending_users w) (next_id w) t.

Section Reachable.
Context {L : Libs} {C : Config}.

(** An address that validation leaves as it is: what every validated
    request carries. *)
Definition normalised (email : string) : Prop := validate_email email = Ok email.



(** One request served. *)
Inductive step : World -> World -> Prop :=
| step_signup env d w :
    normalised (Schemas.email d) -> step w (snd (Auth.signup env d w))
| step_verify_otp env v w : step w (snd (Auth.verify_otp env v w))
| step_resend_otp env r w : step w (snd (Auth.resend_otp env r w))
| step_login env l w : step w (snd (Auth.login env l w))
| step_google_callback env idp code w : step w (snd (Auth.google_callback env idp code w)).

Inductive reachable : World -> Prop :=
| reachable_empty : reachable empty_world
| reachable_step w w' : reachable w -> step w w' -> reachable w'.
End Reachable.

(** The character of a decimal digit [d], as [str(d)] writes it *)
Definition digit_char (d : Z) : ascii := ascii_of_nat (48 + Z.to_nat d).

(** ** models/schemas.py: the other request models *)

(** [\d] on code points below 256: the ASCII decimal digits *)
Definition is_decimal (c : ascii) : bool :=
  let n := N_of_ascii c in ((48 <=? n) && (n <=? 57))%N.

(** Characters of [str.isdigit()] below 256: the decimal digits and the
    superscripts two, three and one *)
Definition isdigit_char (c : ascii) : bool :=
  let n := N_of_ascii c in
  (is_decimal c || (n =? 178) || (n =? 179) || (n =? 185))%N.

(** [s.isdigit()]: false on the empty string *)
Definition isdigit (s : string) : bool :=
  negb (py_not s) && forallb isdigit_char (list_ascii_of_string s).

Definition all_decimal (s : string) : bool :=
  forallb is_decimal (list_ascii_of_string s).

(** The pattern [^\d{6}$] as pydantic's regex engine reads it: the whole
    string is six digits. On code points below 256 the digits of [\d] are
    the ASCII decimal digits. *)
Definition pattern_six_digits (s : string) : bool :=
  Nat.eqb (String.length s) 6 && all_decimal s.

Module OTPSchemas.
Section WithLibs.
Context {L : Libs}.

Definition validate_otp (v : string) : result string :=
  if negb (isdigit v) then Raise (ValueError "OTP must contain only digits")
  else Ok v.

(** [otp: str = Field(..., min_length=6, max_length=6, pattern=...)] with
    its validator, which runs once the constraints hold *)
Definition otp_field (v : string) : result string :=
  rbind (Schemas.constrained_str (Some 6%nat) (Some 6%nat) v) (fun v =>
    if pattern_six_digits v then validate_otp v
    else Raise (ValueError "String should match pattern '^\d{6}$'")).

Definition validate_VerifyOTPRequest (body : Schemas.VerifyOTPRequest)
  : Schemas.validation Schemas.VerifyOTPRequest :=
  let r_email := validate_email (Schemas.verify_email body) in
  let r_otp := otp_field (Schemas.otp body) in
  match r_email, r_otp with
  | Ok e, Ok o => Schemas.Valid (Schemas.mkVerifyOTPRequest e o)
  | _, _ =>
      Schemas.ValidationError
        (Schemas.check_field "email" r_email ++ Schemas.check_field "otp" r_otp)
  end.

(** [password: str = Field(..., min_length=1)] *)
Definition validate_LoginRequest (body : Schemas.LoginRequest)
  : Schemas.validation Schemas.LoginRequest :=
  let r_email := validate_email (Schemas.login_email body) in
  let r_password := Schemas.constrained_str (Some 1%nat) None (Schemas.login_password body) in
  match r_email, r_password with
  | Ok e, Ok p => Schemas.Valid (Schemas.mkLoginRequest e p)
  | _, _ =>
      Schemas.ValidationError
        (Schemas.check_field "email" r_email ++ Schemas.check_field "password" r_password)
  end.

End WithLibs.
End OTPSchemas.

(** ** routers/auth.py: get_current_user *)

(** The exceptions of jose that the dependency names. *)
Definition ExpiredSignatureError (msg : string) : exn :=
  OtherException "ExpiredSignatureError" msg.

Definition JWTError (msg : string) : exn := OtherException "JWTError" msg.

(** [isinstance(e, jwt.ExpiredSignatureError)] *)
Definition is_ExpiredSignatureError (e : exn) : bool :=
  match e with
  | OtherException cls _ => String.eqb cls "ExpiredSignatureError"
  | _ => false
  end.

(** [isinstance(e, JWTError)]: the class and its subclasses in jose *)
Definition is_JWTError (e : exn) : bool :=
  match e with
  | OtherException cls _ =>
      str_in cls ["JWTError"; "JWTClaimsError"; "ExpiredSignatureError"]
  | _ => false
  end.

(** [jwt.decode(token, key, algorithms=[algorithm])] followed by
    [payload.get("sub")], as one request sees it at its instant. *)
Record TokenDecoder : Type := mkTokenDecoder {
  jwt_decode_sub : string -> string -> string -> result (option string)
}.

Module AuthDeps.
Section WithConfig.
Context {C : Config}.

Definition get_current_user (dec : TokenDecoder) (token : string) : M User.t :=
  try_catch
    (email <- lift (jwt_decode_sub dec token SECRET_KEY ALGORITHM) ;;
     match email with
     | None => raise (HTTPException 401 "Invalid authentication credentials")
     | Some email =>
     user <- Users.find_one email ;;
     match user with
     | None => raise (HTTPException 401 "User not found")
     | Some user =>
     if negb (User.is_active user) then raise (HTTPException 400 "Inactive user")
     else ret user
     end
     end)
    (fun e =>
       if is_ExpiredSignatureError e then raise (HTTPException 401 "Token has expired")
       else if is_JWTError e then raise (HTTPException 401 "Could not validate credentials")
       else raise e).

End WithConfig.
End AuthDeps.

(** ** routers/protected.py *)

(** One entry of the list GET /api/all-users returns. *)
Record UserSummary : Type := mkUserSummary {
  summary_email : string;
  summary_full_name : string;
  summary_organization_type : string;
  summary_organization_name : option string;
  summary_google_id : option string;
  summary_is_active : bool;
  summary_is_email_verified : bool
}.

Inductive ProfileResponse : Type :=
| ProfileUpdated (message email full_name : string) (organization_name : option string)
| UserList (total : nat) (users : list UserSummary).

Module Protected.
Section WithConfig.
Context {C : Config}.

Definition with_full_name (n : string) (u : User.t) : User.t :=
  User.mk (User.id u) (User.email u) n (User.date_of_birth u) (User.organization_type u)
    (User.organization_name u) (User.hashed_password u) (User.google_id u)
    (User.is_email_verified u) (User.is_active u) (User.is_superuser u)
    (User.created_at u) (User.updated_at u).

Definition with_organization_name (n : option string) (u : User.t) : User.t :=
  User.mk (User.id u) (User.email u) (User.full_name u) (User.date_of_birth u)
    (User.organization_type u) n (User.hashed_password u) (User.google_id u)
    (User.is_email_verified u) (User.is_active u) (User.is_superuser u)
    (User.created_at u) (User.updated_at u).

Definition with_updated_at (t : option datetime) (u : User.t) : User.t :=
  User.mk (User.id u) (User.email u) (User.full_name u) (User.date_of_birth u)
    (User.organization_type u) (User.organization_name u) (User.hashed_password u)
    (User.google_id u) (User.is_email_verified u) (User.is_active u)
    (User.is_superuser u) (User.created_at u) t.

(** The body of update_profile, given the user the dependency returned. *)
Definition update_profile_body (env : Env) (full_name organization_name : option string)
    (user : User.t) : M ProfileResponse :=
  let user := match full_name with
              | Some n => with_full_name n user
              | None => user
              end in
  let user := match organization_name with
              | Some n => with_organization_name (Some n) user
              | None => user
              end in
  let user := with_updated_at (Some (utcnow env)) user in
  user <- Users.save user ;;
  ret (ProfileUpdated "Profile updated successfully" (User.email user)
         (User.full_name user) (User.organization_name user)).

(** PUT /api/profile: the dependency, then the body. *)
Definition update_profile (env : Env) (dec : TokenDecoder) (token : string)
    (full_name organization_name : option string) : M ProfileResponse :=
  user <- AuthDeps.get_current_user dec token ;;
  update_profile_body env full_name organization_name user.

(** GET /api/all-users *)
Definition summary (u : User.t) : UserSummary :=
  mkUserSummary (User.email u) (User.full_name u) (User.organization_type u)
    (User.organization_name u) (User.google_id u) (User.is_active u)
    (User.is_email_verified u).

Definition get_all_users (dec : TokenDecoder) (token : string) : M ProfileResponse :=
  current_user <- AuthDeps.get_current_user dec token ;;
  fun w => (Ok (UserList (List.length (users w)) (map summary (users w))), w).

End WithConfig.
End Protected.

(** ** What the handlers keep true of every stored document *)

(** An Identity as the handlers create it: verified, active, not
    privileged, and with a password hash or a provider subject. *)
Definition identity_ok (u : User.t) : Prop :=
  User.is_email_verified u = true
  /\ User.is_active u = true
  /\ User.is_superuser u = false
  /\ (User.hashed_password u <> None \/ py_not_opt (User.google_id u) = false).

(** A pending registration as the handlers leave it: the failure counter
    between 0 and the cap, and a code of six decimal digits. *)
Definition pending_ok (p : PendingUser.t) : Prop :=
  0 <= PendingUser.otp_attempts p <= 5
  /\ String.length (PendingUser.otp_code p) = 6%nat
  /\ all_decimal (PendingUser.otp_code p) = true.

Definition documents_ok (w : World) : Prop :=
  (forall u, In u (users w) -> identity_ok u)
  /\ (forall p, In p (pending_users w) -> pending_ok p).

(** ** The worlds the whole API can produce *)

Section Served.
Context {L : Libs} {C : Config}.

(** One request to a route that can write or that reads the store behind
    the bearer token: the routes of routers/auth.py and the two of
    routers/protected.py that are modelled. *)
Inductive request : World -> World -> Prop :=
| request_auth w w' : step w w' -> request w w'
| request_update_profile env dec token full_name organization_name w :
    request w (snd (Protected.update_profile env dec token full_name organization_name w))
| request_get_all_users dec token w :
    request w (snd (Protected.get_all_users dec token w)).

Inductive served : World -> Prop :=
| served_empty : served empty_world
| served_request w w' : served w -> request w w' -> served w'.

End Served.

(** ** The records a signup and a promotion store *)

(** The pending registration signup stores for request [d]: a new one, or
    the found one overwritten in place. *)
Definition signup_record (env : Env) (d : Schemas.SignupRequest) (dob : datetime)
    (hashed_pwd : string) (found : option PendingUser.t) (fresh_id : nat) : PendingUser.t :=
  match found with
  | Some p =>
      PendingUser.mk (PendingUser.id p) (PendingUser.email p) (Schemas.full_name d) dob
        (Schemas.organization_type d) (Schemas.organization_name d) hashed_pwd
        (EmailServices.generate_otp (random env)) (utcnow env) 0 (PendingUser.created_at p)
  | None =>
      PendingUser.mk (Some fresh_id) (Schemas.email d) (Schemas.full_name d) dob
        (Schemas.organization_type d) (Schemas.organization_name d) hashed_pwd
        (EmailServices.generate_otp (random env)) (utcnow env) 0 (utcnow env)
  end.




(** ** Asha's registration, continued *)

Module Journey.

Definition start : Env := Scenario.env_at Scenario.t0 (Ok tt).

(** One minute after the signup. *)
Definition soon : Env := Scenario.env_at (Scenario.t0 + 60000000) (Ok tt).

(** Her date of birth and the hash of her password, as the stand-ins
    compute them. *)
Definition dob : datetime := 62766748800000000.

Definition hashed : string :=
  "$2b$4444444444444444444444444444444444444444444444444444444444444444".

Definition asha_login : Schemas.LoginRequest :=
  Schemas.mkLoginRequest "a@x.com" "longpassword1".

(** The token issued at [now] for her email and the identifier [uid]. *)
Definition token_at (now : datetime) (uid : nat) : string :=
  match Auth.create_access_token (L := Stub.libs) (C := Stub.config) now "a@x.com"
          (str_of_id (Some uid)) with
  | Ok tok => tok
  | Raise _ => ""
  end.

(** A decoder that accepts the tokens issued for her email. *)
Definition decoder : TokenDecoder :=
  mkTokenDecoder
    (fun token key algorithm =>
       if prefix "jwt.a@x.com." token then Ok (Some "a@x.com")
       else Raise (JWTError "Signature verification failed.")).

Definition get_current_user (token : string) : M User.t :=
  AuthDeps.get_current_user (C := Stub.config) decoder token.

Definition update_profile (env : Env) (token : string)
    (full_name organization_name : option string) : M ProfileResponse :=
  Protected.update_profile (C := Stub.config) env decoder token full_name organization_name.

Definition post_signup (now : datetime) (env : Env) (body : Schemas.SignupRequest)
  : World -> HTTPReply * World :=
  post_signup (L := Stub.libs) now env body.


(** Three minutes after the signup. *)
Definition afterwards : Env := Scenario.env_at (Scenario.t0 + 180000000) (Ok tt).


(** She changes her name after confirming and logging in. *)
Definition renamed : World :=
  snd (update_profile afterwards (token_at (Scenario.t0 + 120000000) 1)
         (Some "Asha R.") None Scenario.after_verify).

End Journey.

(** * Properties *)

(** ** Strings *)

Lemma py_not_false_iff (s : string) : py_not s = false <-> s <> EmptyString.
Proof. destruct s; simpl; split; intro H; congruence. Qed.

Lemma is_ascii_cons (c : ascii) (s : string) :
  is_ascii (String c s) = (N_of_ascii c <? 128)%N && is_ascii s.
Proof. reflexivity. Qed.

Lemma encode_utf8_ascii (s : string) : is_ascii s = true -> encode_utf8 s = s.
Proof.
  induction s as [|c s IH]; intro H; [reflexivity|].
  rewrite is_ascii_cons in H. apply andb_prop in H as [Hc Hs].
  simpl. rewrite Hc, (IH Hs). reflexivity.
Qed.

Lemma decode_utf8_ascii (s : string) : is_ascii s = true -> decode_utf8 s = Ok s.
Proof.
  induction s as [|c s IH]; intro H; [reflexivity|].
  rewrite is_ascii_cons in H. apply andb_prop in H as [Hc Hs].
  simpl. rewrite Hc, (IH Hs). reflexivity.
Qed.

Lemma is_hex_char_ascii (c : ascii) :
  is_hex_char c = true -> (N_of_ascii c <? 128)%N = true /\ negb (N_of_ascii c =? 0)%N = true.
Proof.
  unfold is_hex_char. intro H. split.
  - apply N.ltb_lt. apply orb_prop in H as [H|H]; apply andb_prop in H as [_ H];
      apply N.leb_le in H; lia.
  - apply negb_true_iff, N.eqb_neq.
    apply orb_prop in H as [H|H]; apply andb_prop in H as [H _];
      apply N.leb_le in H; lia.
Qed.

Lemma is_hex_ascii (s : string) : is_hex s = true -> is_ascii s = true /\ no_nul s = true.
Proof.
  unfold is_hex, is_ascii, no_nul.
  induction (list_ascii_of_string s) as [|c l IH]; simpl; intro H; [auto|].
  apply andb_prop in H as [Hc Hl].
  destruct (is_hex_char_ascii c Hc) as [-> ->], (IH Hl) as [-> ->]. auto.
Qed.

(** ** utils/password.py *)

Section PasswordFacts.
Context {L : Libs}.

Lemma verify_password_empty_password (h : string) :
  Password.verify_password "" h = Ok false.
Proof. reflexivity. Qed.

Lemma verify_password_empty_hash (p : string) :
  Password.verify_password p "" = Ok false.
Proof. unfold Password.verify_password. destruct p; reflexivity. Qed.

Lemma verify_password_cases (p h : string) :
  Password.verify_password p h = Ok true \/ Password.verify_password p h = Ok false.
Proof.
  unfold Password.verify_password.
  destruct (py_not p || py_not h); [now right|].
  destruct (bcrypt_checkpw _ _) as [[|]|e]; simpl; auto.
Qed.

(** C9: [verify_password] returns a boolean on every pair of inputs and
    never raises; the boolean is [False] when the password is empty, when
    the stored hash is empty, and when bcrypt rejects the stored hash as
    malformed (raises on it). *)
Theorem verify_password_never_raises (plain_password hashed_password : string) :
  (exists b, Password.verify_password plain_password hashed_password = Ok b)
  /\ (plain_password = "" ->
      Password.verify_password plain_password hashed_password = Ok false)
  /\ (hashed_password = "" ->
      Password.verify_password plain_password hashed_password = Ok false)
  /\ (forall e,
        bcrypt_checkpw
          (encode_utf8 (sha256_hexdigest (encode_utf8 plain_password)))
          (encode_utf8 hashed_password) = Raise e ->
        Password.verify_password plain_password hashed_password = Ok false).
Proof.
  repeat split.
  - destruct (verify_password_cases plain_password hashed_password) as [H|H];
      rewrite H; eauto.
  - intros ->. apply verify_password_empty_password.
  - intros ->. apply verify_password_empty_hash.
  - intros e He. unfold Password.verify_password.
    destruct (py_not plain_password || py_not hashed_password); [reflexivity|].
    rewrite He. reflexivity.
Qed.

Context {LS : LibsSpec L}.

Lemma hash_password_ok (entropy : Z) (p : string) :
  p <> "" ->
  exists h, Password.hash_password entropy p = Ok h
            /\ bcrypt_hashpw (sha256_hexdigest (encode_utf8 p)) (bcrypt_gensalt 12 entropy) = Ok h.
Proof.
  intro Hp. unfold Password.hash_password.
  apply py_not_false_iff in Hp. rewrite Hp.
  set (d := sha256_hexdigest (encode_utf8 p)).
  destruct (is_hex_ascii d (sha256_hexdigest_hex _)) as [Hascii Hnul].
  rewrite (encode_utf8_ascii d Hascii).
  destruct (bcrypt_hashpw_gensalt d 12 entropy Hnul) as [h Hh].
  - unfold d. rewrite sha256_hexdigest_length. lia.
  - lia.
  - exists h. rewrite Hh. simpl.
    destruct (bcrypt_hashpw_ascii _ _ _ Hh) as [Ha _].
    rewrite (decode_utf8_ascii h Ha). auto.
Qed.

(** C3: for every non-empty password, of any length, hashing succeeds and
    the password verifies against the hash it produced: both paths apply
    the same SHA-256 pre-hash before bcrypt. *)
Theorem verify_hash_roundtrip (entropy : Z) (p : string) :
  p <> "" ->
  exists h, Password.hash_password entropy p = Ok h
            /\ Password.verify_password p h = Ok true.
Proof.
  intro Hp. destruct (hash_password_ok entropy p Hp) as (h & Hh & Hb).
  exists h. split; [exact Hh|].
  destruct (bcrypt_hashpw_ascii _ _ _ Hb) as [Ha Hne].
  unfold Password.verify_password.
  apply py_not_false_iff in Hp. apply py_not_false_iff in Hne.
  rewrite Hp, Hne. simpl.
  destruct (is_hex_ascii _ (sha256_hexdigest_hex (encode_utf8 p))) as [Hascii _].
  rewrite (encode_utf8_ascii _ Hascii), (encode_utf8_ascii h Ha).
  rewrite (bcrypt_checkpw_hashpw _ _ _ _ Hb). reflexivity.
Qed.

End PasswordFacts.

(** The stand-ins meet the assumptions made of hashlib and bcrypt. *)

Lemma stub_hex_digit (n : nat) : is_hex_char (Stub.hex_digit n) = true.
Proof. do 16 (destruct n as [|n]; [reflexivity|]). reflexivity. Qed.

Lemma stub_prefix_salt (s : string) : prefix "$2b$" ("$2b$" ++ s) = true.
Proof. simpl. destruct s; reflexivity. Qed.

Lemma stub_libs_spec : LibsSpec Stub.libs.
Proof.
  constructor; simpl.
  - intro b. reflexivity.
  - intro b. unfold Stub.sha256_hexdigest, is_hex. simpl.
    rewrite (stub_hex_digit (Stub.checksum b)). reflexivity.
  - intros pw rounds entropy _ _ _. unfold Stub.hashpw, Stub.gensalt.
    rewrite stub_prefix_salt. destruct (is_ascii pw); eauto.
  - intros pw salt h. unfold Stub.hashpw.
    destruct (prefix "$2b$" salt); [|discriminate].
    destruct (is_ascii pw) eqn:Hpw; intro H; injection H as <-;
      (split; [|discriminate]); [exact Hpw | reflexivity].
  - intros pw rounds entropy h. unfold Stub.checkpw, Stub.hashpw, Stub.gensalt.
    rewrite stub_prefix_salt.
    destruct (is_ascii pw) eqn:Hpw; intro H; injection H as <-.
    + pose proof (stub_prefix_salt pw) as Hp. simpl in Hp |- *. rewrite Hp.
      simpl. rewrite String.eqb_refl. reflexivity.
    + reflexivity.
Qed.

(** A 500-character password, far beyond the 72 bytes bcrypt reads. *)
Lemma verify_hash_roundtrip_witness :
  exists h,
    Password.hash_password (L := Stub.libs) 7 (Stub.string_repeat 500 "a") = Ok h
    /\ Password.verify_password (L := Stub.libs) (Stub.string_repeat 500 "a") h = Ok true.
Proof.
  apply (verify_hash_roundtrip (L := Stub.libs) (LS := stub_libs_spec) 7
           (Stub.string_repeat 500 "a")).
  simpl. discriminate.
Defined.

(** ** models/schemas.py *)

Lemma validate_organization_type_allowed (v : string) :
  In v Schemas.allowed_organization_types -> Schemas.validate_organization_type v = Ok v.
Proof.
  intro H. unfold Schemas.validate_organization_type, str_in.
  replace (existsb (String.eqb v) Schemas.allowed_organization_types) with true; [reflexivity|].
  symmetry. apply existsb_exists. exists v. split; [exact H | apply String.eqb_refl].
Qed.

Lemma validate_organization_type_other (v : string) :
  ~ In v Schemas.allowed_organization_types ->
  exists m, Schemas.validate_organization_type v = Raise (ValueError m).
Proof.
  intro H. unfold Schemas.validate_organization_type, str_in.
  destruct (existsb (String.eqb v) Schemas.allowed_organization_types) eqn:E.
  - exfalso. apply H. apply existsb_exists in E as (x & Hx & Hv).
    apply String.eqb_eq in Hv. subst. exact Hx.
  - simpl. eauto.
Qed.

(** C4: the validator of organization_type accepts law_firm, corporate,
    government, ngo, individual, student and other, and rejects every
    value outside the enumeration of organization classifications; but it
    also rejects researcher, which that enumeration lists (and which the
    Identity model uses as its default). *)
Theorem organization_type_researcher_rejected :
  Schemas.validate_organization_type "researcher"
  = Raise (ValueError
      "organization_type must be one of: law_firm, corporate, government, ngo, individual, student, other")
  /\ (forall v,
        In v ["law_firm"; "corporate"; "government"; "ngo"; "individual"; "student"; "other"] ->
        Schemas.validate_organization_type v = Ok v)
  /\ (forall v,
        ~ In v ["law_firm"; "corporate"; "government"; "ngo"; "individual"; "student";
                "researcher"; "other"] ->
        exists m, Schemas.validate_organization_type v = Raise (ValueError m)).
Proof.
  split; [reflexivity | split].
  - apply validate_organization_type_allowed.
  - intros v Hv. apply validate_organization_type_other.
    intro Hin. apply Hv. simpl in *. tauto.
Qed.

Lemma constrained_str_too_short (lo : nat) (hi : option nat) (v : string) :
  (String.length v < lo)%nat ->
  exists m, Schemas.constrained_str (Some lo) hi v = Raise (ValueError m).
Proof.
  intro H. unfold Schemas.constrained_str.
  apply Nat.ltb_lt in H. rewrite H. eauto.
Qed.

Section SchemaFacts.
Context {L : Libs} {C : Config}.

Lemma validate_SignupRequest_organization_type (now : datetime) (body d : Schemas.SignupRequest) :
  Schemas.validate_SignupRequest now body = Schemas.Valid d ->
  In (Schemas.organization_type body) Schemas.allowed_organization_types.
Proof.
  unfold Schemas.validate_SignupRequest.
  destruct (Schemas.validate_organization_type (Schemas.organization_type body)) as [t|e] eqn:E.
  - intros _. unfold Schemas.validate_organization_type, str_in in E.
    destruct (existsb _ _) eqn:Ex; [|discriminate].
    apply existsb_exists in Ex as (x & Hx & Hv). apply String.eqb_eq in Hv. now subst.
  - destruct (Schemas.constrained_str _ _ (Schemas.full_name body)),
             (validate_email _), (Schemas.validate_date_of_birth _ _),
             (match Schemas.organization_name body with Some _ => _ | None => _ end),
             (Schemas.constrained_str _ _ (Schemas.password body));
      simpl; try discriminate;
      destruct (Schemas.passwords_match _ _); discriminate.
Qed.

Lemma signup_researcher_rejected (now : datetime) (body : Schemas.SignupRequest) :
  Schemas.organization_type body = "researcher" ->
  exists errors, Schemas.validate_SignupRequest now body = Schemas.ValidationError errors.
Proof.
  intro Hr.
  destruct (Schemas.validate_SignupRequest now body) as [d|errors] eqn:E; [|eauto].
  apply validate_SignupRequest_organization_type in E. rewrite Hr in E.
  simpl in E. repeat (destruct E as [E|E]; [discriminate E|]). destruct E.
Qed.

(** C10: a signup body whose password has fewer than 10 characters is
    answered with the validation error 422, naming the password field, and
    the world is left exactly as it was: the handler does not run, so
    nothing is hashed, read from or written to the store, or sent. *)
Theorem short_password_rejected (now : datetime) (env : Env)
    (body : Schemas.SignupRequest) (w : World) :
  (String.length (Schemas.password body) < 10)%nat ->
  exists errors,
    post_signup now env body w = (ValidationReply 422 errors, w)
    /\ In "password" (map fst errors).
Proof.
  intro Hlen. unfold post_signup, Schemas.validate_SignupRequest.
  destruct (constrained_str_too_short 10 None _ Hlen) as [m Hm]. rewrite Hm.
  destruct (Schemas.constrained_str _ _ (Schemas.full_name body)),
           (validate_email _), (Schemas.validate_date_of_birth _ _),
           (Schemas.validate_organization_type _),
           (match Schemas.organization_name body with Some _ => _ | None => _ end);
    simpl; eexists; (split; [reflexivity|]);
    rewrite ?map_app, ?in_app_iff; simpl; tauto.
Qed.

End SchemaFacts.

Lemma short_password_rejected_witness :
  exists errors,
    post_signup (L := Stub.libs) 63900000000000000
      (mkEnv 63900000000000000 (fun _ => 0) 7 (Ok tt))
      (Schemas.mkSignupRequest "Asha Rao" "a@x.com" "1990-01-01" "student" None
         "short" "short")
      empty_world
    = (ValidationReply 422 errors, empty_world)
    /\ In "password" (map fst errors).
Proof.
  apply (short_password_rejected (L := Stub.libs)).
  simpl. lia.
Defined.

(** ** Collections *)

Lemma id_eqb_eq (a b : option nat) : id_eqb a b = true <-> a = b.
Proof.
  destruct a as [x|], b as [y|]; simpl; split; intro H; try congruence.
  - apply Nat.eqb_eq in H. congruence.
  - apply Nat.eqb_eq. congruence.
Qed.

Lemma id_eqb_refl (a : option nat) : id_eqb a a = true.
Proof. now apply id_eqb_eq. Qed.

Section ListFacts.
Context {D K : Type} (f : D -> K).

Lemma NoDup_map_eq (l : list D) (x y : D) :
  NoDup (map f l) -> In x l -> In y l -> f x = f y -> x = y.
Proof.
  induction l as [|a l IH]; simpl; [tauto|].
  intros Hnd Hx Hy Hf. inversion Hnd as [|? ? Hnotin Hnd']; subst.
  destruct Hx as [->|Hx], Hy as [->|Hy]; auto.
  - exfalso. apply Hnotin. rewrite Hf. now apply in_map.
  - exfalso. apply Hnotin. rewrite <- Hf. now apply in_map.
Qed.

Lemma NoDup_map_filter (g : D -> bool) (l : list D) :
  NoDup (map f l) -> NoDup (map f (filter g l)).
Proof.
  induction l as [|a l IH]; simpl; intro H; [constructor|].
  inversion H as [|? ? Hnotin Hnd]; subst.
  destruct (g a); simpl; [constructor|]; auto.
  intro Hin. apply Hnotin. apply in_map_iff in Hin as (y & Hy & Hyin).
  apply filter_In in Hyin as [Hyin _]. rewrite <- Hy. now apply in_map.
Qed.

Lemma NoDup_map_snoc (l : list D) (d : D) :
  NoDup (map f l) -> ~ In (f d) (map f l) -> NoDup (map f (l ++ [d])).
Proof.
  intros Hnd Hnotin. rewrite map_app. simpl.
  apply NoDup_app; [exact Hnd | repeat constructor; simpl; tauto |].
  intros x Hx [<-|[]]. contradiction.
Qed.
End ListFacts.

Section IdFacts.
Context {D : Type} (get_id : D -> option nat).

Lemma has_id_In (d d' : D) (l : list D) :
  In d l -> get_id d' = get_id d -> has_id get_id d' l = true.
Proof.
  intros H Hid. apply existsb_exists. exists d. split; [exact H|].
  rewrite Hid. apply id_eqb_refl.
Qed.

Lemma map_id_replace_by_id (l : list D) (d' : D) :
  map get_id (replace_by_id get_id d' l) = map get_id l.
Proof.
  unfold replace_by_id. rewrite map_map. apply map_ext. intro x.
  destruct (id_eqb (get_id x) (get_id d')) eqn:E; [|reflexivity].
  apply id_eqb_eq in E. congruence.
Qed.

Lemma In_replace_by_id (l : list D) (d' x : D) :
  In x (replace_by_id get_id d' l) -> x = d' \/ In x l.
Proof.
  unfold replace_by_id. intro H. apply in_map_iff in H as (y & Hy & Hin).
  destruct (id_eqb (get_id y) (get_id d')); subst; auto.
Qed.

Lemma ids_fresh_snoc (bound : nat) (l : list D) (d : D) :
  ids_fresh get_id bound l -> get_id d = Some bound ->
  ids_fresh get_id (S bound) (l ++ [d]).
Proof.
  intros Hf Hd x Hx. apply in_app_iff in Hx as [Hx|[<-|[]]].
  - destruct (Hf x Hx) as (n & Hn & Hlt). exists n. split; [exact Hn | lia].
  - exists bound. split; [exact Hd | lia].
Qed.

Lemma ids_nodup_snoc (bound : nat) (l : list D) (d : D) :
  ids_fresh get_id bound l -> get_id d = Some bound ->
  NoDup (map get_id l) -> NoDup (map get_id (l ++ [d])).
Proof.
  intros Hf Hd Hnd. apply NoDup_map_snoc; [exact Hnd|].
  intro Hx. apply in_map_iff in Hx as (y & Hy & Hyin).
  destruct (Hf y Hyin) as (n & Hn & Hlt). rewrite Hd in Hy. rewrite Hy in Hn.
  injection Hn as <-. lia.
Qed.

Lemma ids_fresh_weaken (bound bound' : nat) (l : list D) :
  ids_fresh get_id bound l -> (bound <= bound')%nat -> ids_fresh get_id bound' l.
Proof.
  intros Hf Hle x Hx. destruct (Hf x Hx) as (n & Hn & Hlt).
  exists n. split; [exact Hn | lia].
Qed.

Lemma ids_fresh_replace_by_id (bound : nat) (l : list D) (d d' : D) :
  ids_fresh get_id bound l -> In d l -> get_id d' = get_id d ->
  ids_fresh get_id bound (replace_by_id get_id d' l).
Proof.
  intros Hf Hin Hid x Hx. apply In_replace_by_id in Hx as [->|Hx]; [|now apply Hf].
  rewrite Hid. now apply Hf.
Qed.

Lemma ids_fresh_delete_by_id (bound : nat) (l : list D) (d : D) :
  ids_fresh get_id bound l -> ids_fresh get_id bound (delete_by_id get_id d l).
Proof.
  intros Hf x Hx. apply filter_In in Hx as [Hx _]. now apply Hf.
Qed.
End IdFacts.

Section CollectionFacts.
Context {D : Type} (get_id : D -> option nat) (key : D -> string).

Local Abbreviation by_key e := (fun d : D => String.eqb (key d) e).

Lemma find_by_key (e : string) (l : list D) (d : D) :
  find (by_key e) l = Some d -> In d l /\ key d = e.
Proof.
  intro H. apply find_some in H as [Hin Hk]. split; [exact Hin|].
  now apply String.eqb_eq.
Qed.

Lemma find_by_key_none (e : string) (l : list D) :
  find (by_key e) l = None -> ~ In e (map key l).
Proof.
  intros H Hin. apply in_map_iff in Hin as (d & Hk & Hd).
  pose proof (find_none _ _ H d Hd) as Hf. cbv beta in Hf.
  rewrite Hk, String.eqb_refl in Hf. discriminate.
Qed.

(** Saving a found document under its own identifier and key: the next
    lookup of the key finds the saved document. *)
Lemma find_replace_by_id (e : string) (l : list D) (d d' : D) :
  find (by_key e) l = Some d -> key d' = key d -> get_id d' = get_id d ->
  find (by_key e) (replace_by_id get_id d' l) = Some d'.
Proof.
  intros Hfind Hkey Hid.
  assert (Hd' : String.eqb (key d') e = true).
  { rewrite Hkey. apply String.eqb_eq. now apply (find_by_key e l d). }
  induction l as [|x l IH]; simpl in *; [discriminate|].
  destruct (String.eqb (key x) e) eqn:Hx.
  - injection Hfind as ->. rewrite Hid, id_eqb_refl, Hd'. reflexivity.
  - destruct (id_eqb (get_id x) (get_id d')).
    + now rewrite Hd'.
    + rewrite Hx. now apply IH.
Qed.

(** Deleting the found document of a collection with unique keys: the
    key is gone. *)
Lemma find_delete_by_id (e : string) (l : list D) (d : D) :
  NoDup (map key l) -> find (by_key e) l = Some d ->
  find (by_key e) (delete_by_id get_id d l) = None.
Proof.
  intros Hnd Hfind. apply find_by_key in Hfind as [Hin Hk].
  destruct (find (by_key e) (delete_by_id get_id d l)) as [x|] eqn:E; [|reflexivity].
  exfalso. apply find_by_key in E as [Hx Hkx].
  apply filter_In in Hx as [Hxl Hne].
  assert (x = d) by (apply (NoDup_map_eq key l); congruence). subst x.
  rewrite id_eqb_refl in Hne. discriminate.
Qed.

Lemma map_key_replace_by_id (l : list D) (d d' : D) :
  NoDup (map get_id l) -> In d l -> get_id d' = get_id d -> key d' = key d ->
  map key (replace_by_id get_id d' l) = map key l.
Proof.
  intros Hnd Hin Hid Hkey. unfold replace_by_id. rewrite map_map.
  apply map_ext_in. intros x Hx.
  destruct (id_eqb (get_id x) (get_id d')) eqn:E; [|reflexivity].
  apply id_eqb_eq in E.
  assert (x = d) by (apply (NoDup_map_eq get_id l); congruence). congruence.
Qed.

End CollectionFacts.

(** ** routers/auth.py: verify_otp *)

(** Unfolds a handler applied to a world into the tree of its branches. *)
Ltac run :=
  cbv [Auth.signup Auth.verify_otp Auth.resend_otp Auth.login
       Auth.google_callback Auth.google_callback_body
       Auth.send_otp_email Auth.reraise_http
       try_catch bind log lift ret raise
       Users.find_one Users.insert Users.save
       Pending.find_one Pending.insert Pending.save Pending.delete];
  cbn [users pending_users next_id trace fst snd].

Lemma is_otp_expired_elapsed (now : datetime) (p : PendingUser.t) (m : Z) :
  valid_datetime (PendingUser.otp_created_at p) -> valid_datetime now -> 0 <= m ->
  PendingUser.otp_created_at p + timedelta_minutes m < now ->
  PendingUser.is_otp_expired now p m = Ok true.
Proof.
  unfold valid_datetime, PendingUser.is_otp_expired, datetime_add, timedelta_minutes.
  intros Hc Hn Hm Hlt.
  replace ((0 <=? _) && (_ <=? DATETIME_MAX)) with true.
  - simpl. f_equal. apply Z.ltb_lt. exact Hlt.
  - symmetry. apply andb_true_intro. split; apply Z.leb_le; lia.
Qed.


Lemma ids_ok_pending_id (w : World) (e : string) (p : PendingUser.t) :
  ids_ok w -> Pending.lookup e (pending_users w) = Some p ->
  exists n, PendingUser.id p = Some n.
Proof.
  intros (_ & _ & Hf & _) Hl.
  apply (find_by_key PendingUser.email) in Hl as [Hin _].
  destruct (Hf p Hin) as (n & Hn & _). eauto.
Qed.

Section VerifyOTP.
Context {L : Libs} {C : Config}.
Variables (env : Env) (v : Schemas.VerifyOTPRequest) (w : World).

Local Abbreviation email := (Schemas.verify_email v).

Lemma verify_otp_not_found :
  Pending.lookup email (pending_users w) = None ->
  Auth.verify_otp env v w
  = (Raise (HTTPException 404 "No pending verification found. Please sign up again."),
     with_trace (EvFindPending email :: trace w) w).
Proof. intro Hf. run. rewrite Hf. reflexivity. Qed.

Variable p : PendingUser.t.
Hypothesis Hfound : Pending.lookup email (pending_users w) = Some p.

Lemma verify_otp_expired_eq :
  PendingUser.is_otp_expired (utcnow env) p 10 = Ok true ->
  Auth.verify_otp env v w
  = (Raise (HTTPException 400 "OTP has expired. Please sign up again."),
     mkWorld (users w) (delete_by_id PendingUser.id p (pending_users w)) (next_id w)
       (EvDeletePending (PendingUser.email p) :: EvFindPending email :: trace w)).
Proof. intro He. run. rewrite Hfound, He. reflexivity. Qed.

Hypothesis Hfresh : PendingUser.is_otp_expired (utcnow env) p 10 = Ok false.

Lemma verify_otp_locked_eq :
  5 <= PendingUser.otp_attempts p ->
  Auth.verify_otp env v w
  = (Raise (HTTPException 429 "Too many failed attempts. Please sign up again."),
     with_trace (EvFindPending email :: trace w) w).
Proof.
  intro Hcap. run. rewrite Hfound, Hfresh.
  unfold PendingUser.is_locked. apply Z.leb_le in Hcap. rewrite Hcap. reflexivity.
Qed.

Lemma verify_otp_wrong_eq :
  ids_ok w -> PendingUser.otp_attempts p < 5 ->
  Schemas.otp v <> PendingUser.otp_code p ->
  let p' := PendingUser.with_otp_attempts (PendingUser.otp_attempts p + 1) p in
  Auth.verify_otp env v w
  = (Raise (HTTPException 400
             ("Invalid OTP. " ++ str_of_Z (5 - (PendingUser.otp_attempts p + 1))
              ++ " attempts remaining.")),
     mkWorld (users w) (replace_by_id PendingUser.id p' (pending_users w)) (next_id w)
       (EvSavePending (PendingUser.email p) :: EvFindPending email :: trace w)).
Proof.
  intros Hids Hlt Hne p'. run. rewrite Hfound, Hfresh.
  unfold PendingUser.is_locked. apply Z.leb_gt in Hlt. rewrite Hlt.
  replace (PendingUser.otp_code p =? Schemas.otp v)%string with false
    by (symmetry; apply String.eqb_neq; congruence).
  destruct (ids_ok_pending_id w email p Hids Hfound) as [n Hn].
  cbn [negb PendingUser.with_otp_attempts PendingUser.id PendingUser.email
       PendingUser.otp_attempts].
  rewrite Hn. cbn [users pending_users next_id trace]. fold p'.
  replace (has_id PendingUser.id p' (pending_users w)) with true; [reflexivity|].
  symmetry. apply (find_by_key PendingUser.email) in Hfound as [Hin _].
  apply existsb_exists. exists p. split; [exact Hin|]. apply id_eqb_refl.
Qed.

Lemma verify_otp_correct_eq (e tok : string) :
  PendingUser.otp_attempts p < 5 ->
  Schemas.otp v = PendingUser.otp_code p ->
  validate_email (PendingUser.email p) = Ok e ->
  Auth.create_access_token (utcnow env) e (str_of_id (Some (next_id w))) = Ok tok ->
  let u := User.mk (Some (next_id w)) e (PendingUser.full_name p)
             (Some (PendingUser.date_of_birth p)) (PendingUser.organization_type p)
             (PendingUser.organization_name p) (Some (PendingUser.hashed_password p))
             None true true false (utcnow env) None in
  Auth.verify_otp env v w
  = (Ok (TokenResponse (Some "Email verified successfully! Welcome to KAANOONGPT!")
           tok "bearer" e (PendingUser.full_name p) (PendingUser.organization_type p)),
     mkWorld (users w ++ [u]) (delete_by_id PendingUser.id p (pending_users w))
       (S (next_id w))
       (EvDeletePending (PendingUser.email p) :: EvInsertUser e
          :: EvFindPending email :: trace w)).
Proof.
  intros Hlt Hcode He Htok u. run. rewrite Hfound, Hfresh.
  unfold PendingUser.is_locked. apply Z.leb_gt in Hlt. rewrite Hlt.
  rewrite Hcode, String.eqb_refl. cbn [negb].
  unfold Auth.new_User. rewrite He.
  cbn [rbind User.with_id User.email User.id User.full_name User.organization_type
       users pending_users next_id trace].
  rewrite Htok. reflexivity.
Qed.

End VerifyOTP.

Section VerifyOTPClaims.
Context {L : Libs} {C : Config}.

(** C1 (as the code has it): for a pending registration that is not
    expired, once 5 failed attempts are recorded every further VerifyOTP
    call is answered 429, whatever code it carries, and writes nothing;
    with 4 recorded failures the 5th call is still judged on its code: a
    wrong code is answered 400 with 0 attempts remaining and locks the
    registration, so that the call after it is answered 429 even with the
    correct code, while a correct code is accepted and returns a token. *)
Theorem verify_otp_lockout_at_cap (env env' : Env) (v v' : Schemas.VerifyOTPRequest)
    (w : World) (p : PendingUser.t) :
  ids_ok w ->
  Pending.lookup (Schemas.verify_email v) (pending_users w) = Some p ->
  PendingUser.is_otp_expired (utcnow env) p 10 = Ok false ->
  (5 <= PendingUser.otp_attempts p ->
     Auth.verify_otp env v w
     = (Raise (HTTPException 429 "Too many failed attempts. Please sign up again."),
        with_trace (EvFindPending (Schemas.verify_email v) :: trace w) w))
  /\ (PendingUser.otp_attempts p = 4 ->
      Schemas.otp v <> PendingUser.otp_code p ->
      fst (Auth.verify_otp env v w)
      = Raise (HTTPException 400 "Invalid OTP. 0 attempts remaining.")
      /\ (Schemas.verify_email v' = Schemas.verify_email v ->
          PendingUser.is_otp_expired (utcnow env') p 10 = Ok false ->
          fst (Auth.verify_otp env' v' (snd (Auth.verify_otp env v w)))
          = Raise (HTTPException 429 "Too many failed attempts. Please sign up again.")))
  /\ (PendingUser.otp_attempts p < 5 ->
      Schemas.otp v = PendingUser.otp_code p ->
      forall e tok,
        validate_email (PendingUser.email p) = Ok e ->
        Auth.create_access_token (utcnow env) e (str_of_id (Some (next_id w))) = Ok tok ->
        fst (Auth.verify_otp env v w)
        = Ok (TokenResponse (Some "Email verified successfully! Welcome to KAANOONGPT!")
                tok "bearer" e (PendingUser.full_name p)
                (PendingUser.organization_type p))).
Proof.
  intros Hids Hfound Hfresh. split; [|split].
  - intro Hcap. now apply verify_otp_locked_eq with (p := p).
  - intros H4 Hne.
    pose proof (verify_otp_wrong_eq env v w p Hfound Hfresh Hids ltac:(lia) Hne) as Hw.
    cbv zeta in Hw. rewrite Hw, H4. split; [reflexivity|].
    intros Hv' Hfresh'. cbn [snd].
    set (p' := PendingUser.with_otp_attempts (4 + 1) p).
    erewrite verify_otp_locked_eq with (p := p'); [reflexivity | | exact Hfresh' | simpl; lia].
    cbn [pending_users]. rewrite Hv'.
    now apply (find_replace_by_id PendingUser.id PendingUser.email) with (d := p).
  - intros Hlt Hcode e tok He Htok.
    now rewrite (verify_otp_correct_eq env v w p Hfound Hfresh e tok Hlt Hcode He Htok).
Qed.

(** C6: when the 10-minute window of a pending registration has elapsed,
    VerifyOTP fails with the expiry error (400) and deletes the pending
    record, leaving the Identities as they were; any later VerifyOTP for
    the same email, at any time and with any code, fails with the
    not-found error (404). *)
Theorem verify_otp_expired_then_not_found (env env' : Env)
    (v v' : Schemas.VerifyOTPRequest) (w : World) (p : PendingUser.t) :
  pending_unique w ->
  Pending.lookup (Schemas.verify_email v) (pending_users w) = Some p ->
  valid_datetime (PendingUser.otp_created_at p) ->
  valid_datetime (utcnow env) ->
  PendingUser.otp_created_at p + timedelta_minutes 10 < utcnow env ->
  Schemas.verify_email v' = Schemas.verify_email v ->
  let w' := snd (Auth.verify_otp env v w) in
  fst (Auth.verify_otp env v w)
  = Raise (HTTPException 400 "OTP has expired. Please sign up again.")
  /\ pending_users w' = delete_by_id PendingUser.id p (pending_users w)
  /\ Pending.lookup (Schemas.verify_email v) (pending_users w') = None
  /\ users w' = users w
  /\ fst (Auth.verify_otp env' v' w')
     = Raise (HTTPException 404 "No pending verification found. Please sign up again.").
Proof.
  intros Huniq Hfound Hc Hn Hlt Hv' w'.
  assert (He : PendingUser.is_otp_expired (utcnow env) p 10 = Ok true)
    by (apply is_otp_expired_elapsed; auto; lia).
  pose proof (verify_otp_expired_eq env v w p Hfound He) as Heq.
  assert (Hgone : Pending.lookup (Schemas.verify_email v) (pending_users w') = None).
  { unfold w'. rewrite Heq. cbn [snd pending_users].
    now apply (find_delete_by_id PendingUser.id PendingUser.email). }
  repeat split.
  - now rewrite Heq.
  - unfold w'. now rewrite Heq.
  - exact Hgone.
  - unfold w'. now rewrite Heq.
  - rewrite verify_otp_not_found; [reflexivity|]. now rewrite Hv'.
Qed.

End VerifyOTPClaims.

Lemma scenario_four_failures_eq :
  Scenario.four_failures
  = mkWorld [] [Scenario.asha_pending 4] 1 (trace Scenario.four_failures).
Proof. vm_compute. reflexivity. Qed.

Lemma scenario_four_failures_ids_ok : ids_ok Scenario.four_failures.
Proof.
  rewrite scenario_four_failures_eq. unfold ids_ok. cbn [users pending_users next_id].
  split; [|split; [|split]].
  - intros d [].
  - constructor.
  - intros d [<-|[]]. exists 0%nat. split; [reflexivity | lia].
  - repeat constructor. simpl. tauto.
Qed.

(** After four wrong codes, the fifth call carries the right one and is
    accepted: the registration is promoted and a token is returned. *)
Lemma fifth_attempt_correct_code_accepted :
  Pending.lookup "a@x.com" (pending_users Scenario.four_failures)
  = Some (Scenario.asha_pending 4)
  /\ fst (Scenario.verify_otp Scenario.later Scenario.good_code Scenario.four_failures)
     = Ok (TokenResponse (Some "Email verified successfully! Welcome to KAANOONGPT!")
             "jwt.a@x.com.1.63871290120000000" "bearer" "a@x.com" "Asha Rao" "student")
  /\ status_of (reply_of
       (fst (Scenario.verify_otp Scenario.later Scenario.good_code Scenario.four_failures)))
     = 200.
Proof. repeat split; vm_compute; reflexivity. Qed.

Lemma verify_otp_lockout_at_cap_witness :
  let w := Scenario.four_failures in
  let p := Scenario.asha_pending 4 in
  (5 <= PendingUser.otp_attempts p ->
     Scenario.verify_otp Scenario.later Scenario.bad_code w
     = (Raise (HTTPException 429 "Too many failed attempts. Please sign up again."),
        with_trace (EvFindPending "a@x.com" :: trace w) w))
  /\ (PendingUser.otp_attempts p = 4 ->
      "000000" <> PendingUser.otp_code p ->
      fst (Scenario.verify_otp Scenario.later Scenario.bad_code w)
      = Raise (HTTPException 400 "Invalid OTP. 0 attempts remaining.")
      /\ ("a@x.com" = "a@x.com" ->
          PendingUser.is_otp_expired (utcnow Scenario.later) p 10 = Ok false ->
          fst (Scenario.verify_otp Scenario.later Scenario.good_code
                 (snd (Scenario.verify_otp Scenario.later Scenario.bad_code w)))
          = Raise (HTTPException 429 "Too many failed attempts. Please sign up again.")))
  /\ (PendingUser.otp_attempts p < 5 ->
      "000000" = PendingUser.otp_code p ->
      forall e tok,
        Stub.validate_email (PendingUser.email p) = Ok e ->
        Auth.create_access_token (L := Stub.libs) (C := Stub.config)
          (utcnow Scenario.later) e (str_of_id (Some (next_id w))) = Ok tok ->
        fst (Scenario.verify_otp Scenario.later Scenario.bad_code w)
        = Ok (TokenResponse (Some "Email verified successfully! Welcome to KAANOONGPT!")
                tok "bearer" e (PendingUser.full_name p) (PendingUser.organization_type p))).
Proof.
  exact (verify_otp_lockout_at_cap (L := Stub.libs) (C := Stub.config)
           Scenario.later Scenario.later Scenario.bad_code Scenario.good_code
           Scenario.four_failures (Scenario.asha_pending 4)
           scenario_four_failures_ids_ok eq_refl eq_refl).
Defined.

Lemma verify_otp_expired_then_not_found_witness :
  let w := Scenario.after_signup in
  let w' := snd (Scenario.verify_otp Scenario.too_late Scenario.good_code w) in
  fst (Scenario.verify_otp Scenario.too_late Scenario.good_code w)
  = Raise (HTTPException 400 "OTP has expired. Please sign up again.")
  /\ pending_users w' = delete_by_id PendingUser.id (Scenario.asha_pending 0) (pending_users w)
  /\ Pending.lookup "a@x.com" (pending_users w') = None
  /\ users w' = users w
  /\ fst (Scenario.verify_otp Scenario.later Scenario.good_code w')
     = Raise (HTTPException 404 "No pending verification found. Please sign up again.").
Proof.
  assert (Hu : pending_unique Scenario.after_signup).
  { unfold pending_unique. vm_compute. repeat constructor. simpl. tauto. }
  assert (Hc : valid_datetime (PendingUser.otp_created_at (Scenario.asha_pending 0))).
  { vm_compute. split; discriminate. }
  assert (Hn : valid_datetime (utcnow Scenario.too_late)).
  { vm_compute. split; discriminate. }
  exact (verify_otp_expired_then_not_found (L := Stub.libs) (C := Stub.config)
           Scenario.too_late Scenario.later Scenario.good_code Scenario.good_code
           Scenario.after_signup (Scenario.asha_pending 0)
           Hu eq_refl Hc Hn eq_refl eq_refl).
Defined.

(** ** routers/auth.py: login *)

Section LoginClaims.
Context {L : Libs} {C : Config}.

Lemma login_unknown_email (env : Env) (l : Schemas.LoginRequest) (w : World) :
  Users.lookup (Schemas.login_email l) (users w) = None ->
  Auth.login env l w
  = (Raise (HTTPException 401 "Invalid email or password"),
     with_trace (EvFindUser (Schemas.login_email l) :: trace w) w).
Proof. intro Hf. run. rewrite Hf. reflexivity. Qed.

Lemma login_wrong_password (env : Env) (l : Schemas.LoginRequest) (w : World)
    (u : User.t) (h : string) :
  Users.lookup (Schemas.login_email l) (users w) = Some u ->
  User.hashed_password u = Some h ->
  Password.verify_password (Schemas.login_password l) h = Ok false ->
  Auth.login env l w
  = (Raise (HTTPException 401 "Invalid email or password"),
     with_trace (EvFindUser (Schemas.login_email l) :: trace w) w).
Proof.
  intros Hf Hh Hv. run. rewrite Hf, Hh. cbn [py_not_opt get_default].
  destruct (py_not h); [reflexivity|]. rewrite Hv. reflexivity.
Qed.


(** C5: a login for an email that no Identity has and a login with a
    wrong password for an existing Identity fail alike: both raise the
    HTTP error 401 with the same detail, so the two replies are equal. *)
Theorem login_failure_uniform (env1 env2 : Env) (l1 l2 : Schemas.LoginRequest)
    (w1 w2 : World) (u : User.t) (h : string) :
  Users.lookup (Schemas.login_email l1) (users w1) = None ->
  Users.lookup (Schemas.login_email l2) (users w2) = Some u ->
  User.hashed_password u = Some h ->
  Password.verify_password (Schemas.login_password l2) h = Ok false ->
  fst (Auth.login env1 l1 w1) = Raise (HTTPException 401 "Invalid email or password")
  /\ fst (Auth.login env2 l2 w2) = Raise (HTTPException 401 "Invalid email or password")
  /\ reply_of (fst (Auth.login env1 l1 w1)) = reply_of (fst (Auth.login env2 l2 w2))
  /\ status_of (reply_of (fst (Auth.login env1 l1 w1))) = 401.
Proof.
  intros Hnone Hsome Hh Hv.
  rewrite (login_unknown_email env1 l1 w1 Hnone).
  rewrite (login_wrong_password env2 l2 w2 u h Hsome Hh Hv).
  repeat split.
Qed.

End LoginClaims.

Lemma login_failure_uniform_witness :
  fst (Scenario.login Scenario.later Scenario.unknown_login Scenario.after_verify)
  = Raise (HTTPException 401 "Invalid email or password")
  /\ fst (Scenario.login Scenario.later Scenario.wrong_password_login Scenario.after_verify)
     = Raise (HTTPException 401 "Invalid email or password")
  /\ reply_of (fst (Scenario.login Scenario.later Scenario.unknown_login Scenario.after_verify))
     = reply_of (fst (Scenario.login Scenario.later Scenario.wrong_password_login
                        Scenario.after_verify))
  /\ status_of (reply_of
       (fst (Scenario.login Scenario.later Scenario.unknown_login Scenario.after_verify)))
     = 401.
Proof.
  exact (login_failure_uniform (L := Stub.libs) (C := Stub.config)
           Scenario.later Scenario.later
           Scenario.unknown_login Scenario.wrong_password_login
           Scenario.after_verify Scenario.after_verify Scenario.asha_user
           "$2b$4444444444444444444444444444444444444444444444444444444444444444"
           eq_refl eq_refl eq_refl eq_refl).
Defined.

(** ** routers/auth.py: signup and resend_otp *)

(** Splits on the scrutinee of the outermost [match] of the goal. *)
Ltac case_branch :=
  match goal with
  | |- context [match ?x with _ => _ end] =>
      lazymatch x with
      | context [match _ with _ => _ end] => fail
      | _ => destruct x eqn:?
      end
  end.

Section NotificationClaims.
Context {L : Libs}.

Lemma signup_response_ignores_mail (env : Env) (mail : result unit)
    (d : Schemas.SignupRequest) (w : World) :
  fst (Auth.signup (mail_outcome mail env) d w) = fst (Auth.signup env d w).
Proof.
  run. cbn [utcnow random entropy sendgrid mail_outcome].
  repeat (case_branch; cbn [fst snd]); reflexivity.
Qed.

Lemma signup_ok (env : Env) (d : Schemas.SignupRequest) (w : World)
    (dob : datetime) (h : string) :
  Users.lookup (Schemas.email d) (users w) = None ->
  strptime_ymd (Schemas.date_of_birth d) = Ok dob ->
  Password.hash_password (entropy env) (Schemas.password d) = Ok h ->
  normalised (Schemas.email d) ->
  fst (Auth.signup env d w)
  = Ok (MessageResponse
          "OTP sent successfully! Please check your email to verify your account."
          (Schemas.email d) 10).
Proof.
  intros Hu Hdob Hh Hn. run. rewrite Hu, Hdob, Hh. cbn [try_except].
  destruct (Pending.lookup _ _) as [p|] eqn:Hp.
  - apply (find_by_key PendingUser.email) in Hp as [_ Hk].
    cbn [PendingUser.id PendingUser.email]. rewrite Hk.
    destruct (PendingUser.id p); reflexivity.
  - unfold Auth.new_PendingUser. rewrite Hn. reflexivity.
Qed.

Lemma resend_otp_mail_failure (env : Env) (r : Schemas.ResendOTPRequest) (w : World)
    (p : PendingUser.t) (e : exn) :
  sendgrid env = Raise e ->
  Pending.lookup (Schemas.resend_email r) (pending_users w) = Some p ->
  fst (Auth.resend_otp env r w)
  = Raise (HTTPException 500 "Failed to send OTP email. Please try again.").
Proof.
  intros Hm Hp. run. rewrite Hp, Hm.
  cbn [PendingUser.with_otp PendingUser.id].
  destruct (PendingUser.id p); reflexivity.
Qed.

Lemma resend_otp_mail_ok (env : Env) (r : Schemas.ResendOTPRequest) (w : World)
    (p : PendingUser.t) :
  sendgrid env = Ok tt ->
  Pending.lookup (Schemas.resend_email r) (pending_users w) = Some p ->
  fst (Auth.resend_otp env r w)
  = Ok (MessageResponse "New OTP sent successfully! Please check your email."
          (PendingUser.email p) 10).
Proof.
  intros Hm Hp. run. rewrite Hp, Hm.
  cbn [PendingUser.with_otp PendingUser.id].
  destruct (PendingUser.id p); reflexivity.
Qed.

(** C7: when the mail provider fails, Signup answers exactly as it does
    when the mail goes out; in particular a signup that passes its checks
    still returns the success payload. Resend, for an email that has a
    pending registration, surfaces the same failure as the HTTP error
    500. *)
Theorem notification_failure_asymmetry (env : Env) (e : exn)
    (d : Schemas.SignupRequest) (r : Schemas.ResendOTPRequest) (w : World) :
  sendgrid env = Raise e ->
  fst (Auth.signup env d w) = fst (Auth.signup (mail_outcome (Ok tt) env) d w)
  /\ (forall dob h,
       Users.lookup (Schemas.email d) (users w) = None ->
       strptime_ymd (Schemas.date_of_birth d) = Ok dob ->
       Password.hash_password (entropy env) (Schemas.password d) = Ok h ->
       normalised (Schemas.email d) ->
       fst (Auth.signup env d w)
       = Ok (MessageResponse
               "OTP sent successfully! Please check your email to verify your account."
               (Schemas.email d) 10))
  /\ (forall p,
       Pending.lookup (Schemas.resend_email r) (pending_users w) = Some p ->
       fst (Auth.resend_otp env r w)
       = Raise (HTTPException 500 "Failed to send OTP email. Please try again.")
       /\ status_of (reply_of (fst (Auth.resend_otp env r w))) = 500
       /\ fst (Auth.resend_otp (mail_outcome (Ok tt) env) r w)
          = Ok (MessageResponse "New OTP sent successfully! Please check your email."
                  (PendingUser.email p) 10)).
Proof.
  intro Hm. split; [|split].
  - symmetry. apply signup_response_ignores_mail.
  - intros dob h. apply signup_ok.
  - intros p Hp. rewrite (resend_otp_mail_failure env r w p e Hm Hp).
    rewrite (resend_otp_mail_ok (mail_outcome (Ok tt) env) r w p eq_refl Hp).
    repeat split.
Qed.

End NotificationClaims.

(** With the mail provider down, a first signup and a repeated one both
    return the success payload, and a resend fails with 500. *)
Lemma notification_failure_asymmetry_witness :
  fst (Scenario.signup Scenario.mail_down Scenario.asha empty_world)
  = Ok (MessageResponse
          "OTP sent successfully! Please check your email to verify your account."
          "a@x.com" 10)
  /\ fst (Scenario.signup Scenario.mail_down Scenario.asha Scenario.after_signup)
     = Ok (MessageResponse
             "OTP sent successfully! Please check your email to verify your account."
             "a@x.com" 10)
  /\ fst (Scenario.resend_otp Scenario.mail_down Scenario.asha_resend Scenario.after_signup)
     = Raise (HTTPException 500 "Failed to send OTP email. Please try again.").
Proof.
  destruct (notification_failure_asymmetry (L := Stub.libs) Scenario.mail_down
              (OtherException "HTTPError" "HTTP Error 401: Unauthorized")
              Scenario.asha Scenario.asha_resend empty_world eq_refl)
    as (_ & Hfirst & _).
  destruct (notification_failure_asymmetry (L := Stub.libs) Scenario.mail_down
              (OtherException "HTTPError" "HTTP Error 401: Unauthorized")
              Scenario.asha Scenario.asha_resend Scenario.after_signup eq_refl)
    as (_ & Hagain & Hresend).
  split; [|split].
  - exact (Hfirst 62766748800000000
             "$2b$4444444444444444444444444444444444444444444444444444444444444444"
             eq_refl eq_refl eq_refl eq_refl).
  - exact (Hagain 62766748800000000
             "$2b$4444444444444444444444444444444444444444444444444444444444444444"
             eq_refl eq_refl eq_refl eq_refl).
  - exact (proj1 (Hresend (Scenario.asha_pending 0) eq_refl)).
Defined.

(** ** routers/auth.py: google_callback *)

Section GoogleClaims.
Context {L : Libs} {C : Config}.
Variables (env : Env) (idp : Provider) (code : string) (w : World).

Local Abbreviation failure :=
  (RedirectResponse (FRONTEND_URL ++ "/auth/login?error=authentication_failed")).








End GoogleClaims.

(** ** The store invariant *)

Lemma store_ok_intro (us : list User.t) (ps : list PendingUser.t) (n : nat)
    (t : list Event) :
  ids_fresh User.id n us -> NoDup (map User.id us) ->
  ids_fresh PendingUser.id n ps -> NoDup (map PendingUser.id ps) ->
  NoDup (map PendingUser.email ps) ->
  store_ok (mkWorld us ps n t).
Proof. unfold store_ok, ids_ok, pending_unique. simpl. tauto. Qed.

(** Records, for every successful lookup in the context, that the found
    document is stored and carries the key. *)
Ltac found_facts :=
  repeat match goal with
  | Hl : Pending.lookup ?e ?l = Some ?p |- _ =>
      lazymatch goal with
      | _ : In p l |- _ => fail
      | _ => let Hin := fresh "Hin" in let Hk := fresh "Hk" in
             destruct (find_by_key PendingUser.email e l p Hl) as [Hin Hk]
      end
  | Hl : Users.lookup ?e ?l = Some ?p |- _ =>
      lazymatch goal with
      | _ : In p l |- _ => fail
      | _ => let Hin := fresh "Hin" in let Hk := fresh "Hk" in
             destruct (find_by_key User.email e l p Hl) as [Hin Hk]
      end
  end.

(** Branches of [save] that a stored document never takes. *)
Ltac absurd_branch :=
  match goal with
  | Hin : In ?t ?l, Hh : has_id ?g ?t' ?l = false |- _ =>
      rewrite (has_id_In g t t' l Hin eq_refl) in Hh; discriminate Hh
  | Hf : ids_fresh ?g _ ?l, Hin : In ?t ?l, Hi : ?g ?t = None |- _ =>
      let n := fresh in let Hn := fresh in
      destruct (Hf t Hin) as (n & Hn & _); rewrite Hn in Hi; discriminate Hi
  end.

Ltac ids_step :=
  first
  [ assumption
  | eapply ids_fresh_snoc; [ids_step | reflexivity]
  | eapply ids_fresh_weaken; [eassumption | lia]
  | eapply ids_fresh_replace_by_id; [ids_step | eassumption | reflexivity]
  | eapply ids_fresh_delete_by_id; ids_step
  | eapply ids_nodup_snoc; [eassumption | reflexivity | assumption]
  | rewrite map_id_replace_by_id; assumption
  | apply NoDup_map_filter; ids_step ].

Ltac emails_step :=
  first
  [ assumption
  | erewrite map_key_replace_by_id;
      [assumption | assumption | eassumption | reflexivity | reflexivity]
  | apply NoDup_map_filter; assumption ].

Ltac finish :=
  first [ assumption
        | apply store_ok_intro; [ids_step | ids_step | ids_step | ids_step | emails_step] ].

(** Unfolds a handler into its branches and clears those that cannot occur. *)
Ltac crunch :=
  run; repeat (case_branch; cbn [fst snd users pending_users next_id]);
  found_facts;
  cbn [PendingUser.id PendingUser.email PendingUser.with_id PendingUser.with_otp
       PendingUser.with_otp_attempts User.id User.email User.with_id
       User.with_google_id] in *;
  try absurd_branch.

Section StoreInvariant.
Context {L : Libs} {C : Config}.

Lemma new_PendingUser_email now e fn dob ot on hp oc oa att p :
  Auth.new_PendingUser now e fn dob ot on hp oc oa att = Ok p ->
  validate_email e = Ok (PendingUser.email p).
Proof.
  unfold Auth.new_PendingUser. destruct (validate_email e); [|discriminate].
  intro H. injection H as <-. reflexivity.
Qed.


Lemma signup_store_ok env d w :
  normalised (Schemas.email d) -> store_ok w -> store_ok (snd (Auth.signup env d w)).
Proof.
  intros Hn Hw. pose proof Hw as [(Hfu & Hnu & Hfp & Hnp) Hup].
  unfold pending_unique in Hup.
  crunch; try finish.
  apply store_ok_intro; try ids_step.
  apply NoDup_map_snoc; [assumption|]. cbn [PendingUser.with_id PendingUser.email].
  match goal with
  | H : Auth.new_PendingUser _ _ _ _ _ _ _ _ _ _ = Ok _ |- _ =>
      apply new_PendingUser_email in H; rewrite Hn in H; injection H as <-
  end.
  now apply (find_by_key_none PendingUser.email).
Qed.

Lemma verify_otp_store_ok env v w :
  store_ok w -> store_ok (snd (Auth.verify_otp env v w)).
Proof.
  intros Hw. pose proof Hw as [(Hfu & Hnu & Hfp & Hnp) Hup].
  unfold pending_unique in Hup. crunch; finish.
Qed.

Lemma resend_otp_store_ok env r w :
  store_ok w -> store_ok (snd (Auth.resend_otp env r w)).
Proof.
  intros Hw. pose proof Hw as [(Hfu & Hnu & Hfp & Hnp) Hup].
  unfold pending_unique in Hup. crunch; finish.
Qed.

Lemma login_store_ok env l w :
  store_ok w -> store_ok (snd (Auth.login env l w)).
Proof.
  intros Hw. pose proof Hw as [(Hfu & Hnu & Hfp & Hnp) Hup].
  unfold pending_unique in Hup. crunch; finish.
Qed.

Lemma google_callback_store_ok env idp code w :
  store_ok w -> store_ok (snd (Auth.google_callback env idp code w)).
Proof.
  intros Hw. pose proof Hw as [(Hfu & Hnu & Hfp & Hnp) Hup].
  unfold pending_unique in Hup. crunch; finish.
Qed.

(** Every world the handlers can produce from the empty store has
    well-formed identifiers and at most one pending registration per
    email: the assumptions made of the store in the statements about
    verify_otp hold in all of them. *)
Lemma reachable_store_ok w : reachable w -> store_ok w.
Proof.
  induction 1 as [|w w' _ IH Hstep].
  - apply store_ok_intro; try constructor; intros d [].
  - destruct Hstep.
    + now apply signup_store_ok.
    + now apply verify_otp_store_ok.
    + now apply resend_otp_store_ok.
    + now apply login_store_ok.
    + now apply google_callback_store_ok.
Qed.

Lemma reachable_pending_unique w : reachable w -> pending_unique w.
Proof. intro H. now destruct (reachable_store_ok w H). Qed.

Lemma reachable_ids_ok w : reachable w -> ids_ok w.
Proof. intro H. now destruct (reachable_store_ok w H). Qed.

End StoreInvariant.

(** ** One Identity per email *)


Section IdentityUniqueness.
Context {L : Libs} {C : Config}.




Lemma signup_already_registered env d w u :
  Users.lookup (Schemas.email d) (users w) = Some u ->
  Auth.signup env d w
  = (Raise (HTTPException 400
             "Email already registered. Please login or use a different email."),
     with_trace (EvFindUser (Schemas.email d) :: trace w) w).
Proof. intro H. run. rewrite H. reflexivity. Qed.





End IdentityUniqueness.

Lemma scenario_after_google_reachable :
  reachable (L := Stub.libs) (C := Stub.config) Scenario.after_google.
Proof.
  apply reachable_step with (w := Scenario.after_signup).
  - apply reachable_step with (w := empty_world); [constructor|].
    exact (step_signup (L := Stub.libs) (C := Stub.config)
             (Scenario.env_at Scenario.t0 (Ok tt)) Scenario.asha empty_world eq_refl).
  - exact (step_google_callback (L := Stub.libs) (C := Stub.config)
             (Scenario.env_at (Scenario.t0 + 60000000) (Ok tt)) Scenario.google
             "auth-code" Scenario.after_signup).
Qed.




(** ** services/email_services.py: generate_otp *)

Lemma is_decimal_isdigit_char (c : ascii) : is_decimal c = true -> isdigit_char c = true.
Proof. unfold isdigit_char. intros ->. reflexivity. Qed.

Lemma str_of_Z_digit (d : Z) :
  0 <= d <= 9 -> str_of_Z d = String (digit_char d) EmptyString /\ is_decimal (digit_char d) = true.
Proof.
  intro H.
  assert (E : d = 0 \/ d = 1 \/ d = 2 \/ d = 3 \/ d = 4 \/ d = 5 \/ d = 6 \/ d = 7
              \/ d = 8 \/ d = 9) by lia.
  repeat (destruct E as [->|E]; [split; reflexivity|]). subst. split; reflexivity.
Qed.

Lemma randint_0_9 (r : Z) : 0 <= EmailServices.randint 0 9 r <= 9.
Proof.
  unfold EmailServices.randint. simpl.
  pose proof (Z.mod_pos_bound r 10 ltac:(lia)). lia.
Qed.

Lemma generate_otp_chars (random : nat -> Z) :
  EmailServices.generate_otp random
  = String (digit_char (EmailServices.randint 0 9 (random 0%nat)))
      (String (digit_char (EmailServices.randint 0 9 (random 1%nat)))
      (String (digit_char (EmailServices.randint 0 9 (random 2%nat)))
      (String (digit_char (EmailServices.randint 0 9 (random 3%nat)))
      (String (digit_char (EmailServices.randint 0 9 (random 4%nat)))
      (String (digit_char (EmailServices.randint 0 9 (random 5%nat))) EmptyString))))).
Proof.
  unfold EmailServices.generate_otp. cbn [seq map join].
  repeat rewrite (proj1 (str_of_Z_digit _ (randint_0_9 _))). reflexivity.
Qed.

Lemma generate_otp_shape (random : nat -> Z) :
  String.length (EmailServices.generate_otp random) = 6%nat
  /\ all_decimal (EmailServices.generate_otp random) = true.
Proof.
  rewrite generate_otp_chars. split; [reflexivity|].
  unfold all_decimal. cbn [list_ascii_of_string forallb].
  repeat rewrite (proj2 (str_of_Z_digit _ (randint_0_9 _))). reflexivity.
Qed.

(** X1: whatever the random draws, generate_otp returns exactly six
    characters, each a decimal digit (leading zeros included): the i-th
    character is the digit drawn i-th. *)
Theorem generate_otp_six_digits (random : nat -> Z) :
  String.length (EmailServices.generate_otp random) = 6%nat
  /\ all_decimal (EmailServices.generate_otp random) = true
  /\ isdigit (EmailServices.generate_otp random) = true
  /\ forall i, (i < 6)%nat ->
       String.get i (EmailServices.generate_otp random)
       = Some (digit_char (EmailServices.randint 0 9 (random i))).
Proof.
  destruct (generate_otp_shape random) as [Hlen Hdec].
  repeat split; try assumption.
  - rewrite generate_otp_chars in *. unfold isdigit, all_decimal in *.
    cbn [list_ascii_of_string forallb py_not negb andb] in *.
    repeat (apply andb_prop in Hdec as [? Hdec]).
    repeat match goal with
           | H : is_decimal ?c = true |- _ => rewrite (is_decimal_isdigit_char c H); clear H
           end.
    reflexivity.
  - intros i Hi. rewrite generate_otp_chars.
    do 6 (destruct i as [|i]; [reflexivity|]). lia.
Qed.

(** ** models/schemas.py: VerifyOTPRequest *)

Lemma six_chars (s : string) :
  String.length s = 6%nat ->
  exists a b c d e f,
    s = String a (String b (String c (String d (String e (String f EmptyString))))).
Proof.
  intro H.
  do 6 (destruct s as [|? s]; [discriminate H|]).
  destruct s; [|discriminate H]. repeat eexists.
Qed.

Lemma otp_field_six_digits (v : string) :
  String.length v = 6%nat -> all_decimal v = true -> OTPSchemas.otp_field v = Ok v.
Proof.
  intros Hlen Hdec. destruct (six_chars v Hlen) as (a & b & c & d & e & f & ->).
  unfold all_decimal in Hdec. cbn [list_ascii_of_string forallb] in Hdec.
  repeat (apply andb_prop in Hdec as [? Hdec]).
  unfold OTPSchemas.otp_field, Schemas.constrained_str. cbn [String.length Nat.ltb Nat.leb rbind].
  unfold pattern_six_digits, all_decimal, OTPSchemas.validate_otp, isdigit.
  cbn [String.length Nat.sub substring list_ascii_of_string forallb py_not negb Nat.eqb].
  repeat match goal with
         | H : is_decimal ?c = true |- _ =>
             rewrite H; rewrite (is_decimal_isdigit_char c H); clear H
         end.
  reflexivity.
Qed.

Lemma otp_field_ok (v o : string) :
  OTPSchemas.otp_field v = Ok o ->
  o = v /\ String.length v = 6%nat /\ all_decimal v = true.
Proof.
  unfold OTPSchemas.otp_field, Schemas.constrained_str.
  destruct (String.length v <? 6)%nat eqn:Hlo; [discriminate|].
  destruct (6 <? String.length v)%nat eqn:Hhi; [discriminate|].
  apply Nat.ltb_ge in Hlo, Hhi. assert (Hlen : String.length v = 6%nat) by lia.
  cbn [rbind]. destruct (six_chars v Hlen) as (a & b & c & d & e & f & ->).
  unfold pattern_six_digits.
  cbn [String.length Nat.sub substring Nat.eqb].
  destruct (all_decimal _) eqn:Hdec; cbn [andb]; [|discriminate].
  unfold OTPSchemas.validate_otp. destruct (negb (isdigit _)); [discriminate|].
  intro H. injection H as <-. auto.
Qed.

Section OTPSchemaFacts.
Context {L : Libs}.

(** X2: a verification request is accepted exactly when its email is a
    valid address and its code is six decimal digits; the accepted
    request carries the normalised address and the code unchanged. Every
    code generate_otp produces is therefore accepted. *)
Theorem verify_otp_request_accepts_six_digits (body d : Schemas.VerifyOTPRequest)
    (random : nat -> Z) :
  (OTPSchemas.validate_VerifyOTPRequest body = Schemas.Valid d
   <-> validate_email (Schemas.verify_email body) = Ok (Schemas.verify_email d)
       /\ Schemas.otp d = Schemas.otp body
       /\ String.length (Schemas.otp body) = 6%nat
       /\ all_decimal (Schemas.otp body) = true)
  /\ (forall e e',
        validate_email e = Ok e' ->
        OTPSchemas.validate_VerifyOTPRequest
          (Schemas.mkVerifyOTPRequest e (EmailServices.generate_otp random))
        = Schemas.Valid (Schemas.mkVerifyOTPRequest e' (EmailServices.generate_otp random))).
Proof.
  split.
  - unfold OTPSchemas.validate_VerifyOTPRequest. split.
    + destruct (validate_email _) as [e|x]; [|destruct (OTPSchemas.otp_field _); discriminate].
      destruct (OTPSchemas.otp_field _) as [o|x] eqn:Ho; [|discriminate].
      intro H. injection H as <-. apply otp_field_ok in Ho as (-> & Hlen & Hdec).
      cbn. auto.
    + intros (He & Ho & Hlen & Hdec). rewrite He, (otp_field_six_digits _ Hlen Hdec).
      destruct d as [de do]. cbn in *. now subst.
  - intros e e' He. unfold OTPSchemas.validate_VerifyOTPRequest.
    cbn [Schemas.verify_email Schemas.otp].
    destruct (generate_otp_shape random) as [Hlen Hdec].
    now rewrite He, (otp_field_six_digits _ Hlen Hdec).
Qed.

End OTPSchemaFacts.

(** ** models/schemas.py: SignupRequest, field by field *)

Lemma constrained_str_min_ok (lo : nat) (v r : string) :
  Schemas.constrained_str (Some lo) None v = Ok r -> r = v /\ (lo <= String.length v)%nat.
Proof.
  unfold Schemas.constrained_str. destruct (String.length v <? lo)%nat eqn:E; [discriminate|].
  apply Nat.ltb_ge in E. intro H. injection H as <-. auto.
Qed.


Section SignupSchemaFacts.
Context {L : Libs}.

Lemma validate_date_of_birth_ok (now : datetime) (v r : string) :
  Schemas.validate_date_of_birth now v = Ok r ->
  r = v /\ exists dob, strptime_ymd v = Ok dob
                       /\ 6575 <= days_between now dob <= 43830.
Proof.
  unfold Schemas.validate_date_of_birth.
  destruct (strptime_ymd v) as [dob|e]; cbn [rbind].
  - destruct (4 * days_between now dob <? 18 * 1461) eqn:E1; [discriminate|].
    destruct (120 * 1461 <? 4 * days_between now dob) eqn:E2; [discriminate|].
    apply Z.ltb_ge in E1, E2. intro H. injection H as <-.
    split; [reflexivity|]. exists dob. split; [reflexivity | lia].
  - destruct e as [| m |]; try discriminate.
    destruct (contains _ m); discriminate.
Qed.

Lemma validate_SignupRequest_valid (now : datetime) (body d : Schemas.SignupRequest) :
  Schemas.validate_SignupRequest now body = Schemas.Valid d ->
  validate_email (Schemas.email body) = Ok (Schemas.email d)
  /\ Schemas.date_of_birth d = Schemas.date_of_birth body
  /\ (exists dob, strptime_ymd (Schemas.date_of_birth body) = Ok dob
                  /\ 6575 <= days_between now dob <= 43830)
  /\ Schemas.password d = Schemas.password body
  /\ (10 <= String.length (Schemas.password body))%nat
  /\ Schemas.confirm_password body = Schemas.password body
  /\ Schemas.confirm_password d = Schemas.password d
  /\ Schemas.organization_type d = Schemas.organization_type body
  /\ Schemas.full_name d = Schemas.full_name body.
Proof.
  unfold Schemas.validate_SignupRequest.
  destruct (Schemas.constrained_str (Some 2%nat) _ (Schemas.full_name body)) as [a|] eqn:Ea;
    [|discriminate].
  destruct (validate_email _) as [b|] eqn:Eb; [|discriminate].
  destruct (Schemas.validate_date_of_birth _ _) as [c|] eqn:Ec; [|discriminate].
  destruct (Schemas.validate_organization_type _) as [o|] eqn:Eo; [|discriminate].
  destruct (match Schemas.organization_name body with Some _ => _ | None => _ end) as [n|];
    [|discriminate].
  destruct (Schemas.constrained_str (Some 10%nat) _ _) as [f|] eqn:Ef; [|discriminate].
  cbn [Schemas.validated].
  destruct (Schemas.passwords_match _ _) as [g|] eqn:Eg; [|discriminate].
  intro H. injection H as <-. cbn.
  apply validate_date_of_birth_ok in Ec as (-> & Hdob).
  apply constrained_str_min_ok in Ef as (-> & Hlen).
  unfold Schemas.passwords_match in Eg.
  destruct (negb (Schemas.confirm_password body =? Schemas.password body)%string) eqn:Em;
    [discriminate|].
  injection Eg as <-. apply negb_false_iff, String.eqb_eq in Em.
  unfold Schemas.validate_organization_type in Eo.
  destruct (negb _) in Eo; [discriminate|]. injection Eo as <-.
  unfold Schemas.constrained_str in Ea.
  destruct (_ <? 2)%nat in Ea; [discriminate|].
  destruct (100 <? _)%nat in Ea; [discriminate|]. injection Ea as <-.
  repeat split; auto.
Qed.



End SignupSchemaFacts.

(** ** Lookups after a write *)

Section LookupFacts.
Context {D : Type} (get_id : D -> option nat) (key : D -> string).

Local Abbreviation by_key e := (fun d : D => String.eqb (key d) e).

Lemma find_snoc_new (e : string) (l : list D) (d : D) :
  find (by_key e) l = None -> key d = e -> find (by_key e) (l ++ [d]) = Some d.
Proof.
  intros Hn Hk. induction l as [|x l IH]; simpl in *.
  - rewrite Hk, String.eqb_refl. reflexivity.
  - destruct (String.eqb (key x) e); [discriminate | now apply IH].
Qed.


Lemma find_replace_other (e : string) (l : list D) (d d' : D) :
  NoDup (map get_id l) -> In d l -> get_id d' = get_id d ->
  key d <> e -> key d' <> e ->
  find (by_key e) (replace_by_id get_id d' l) = find (by_key e) l.
Proof.
  intros Hnd Hin Hid Hk Hk'.
  assert (Hall : forall x, In x l ->
            by_key e (if id_eqb (get_id x) (get_id d') then d' else x) = by_key e x).
  { intros x Hx. destruct (id_eqb (get_id x) (get_id d')) eqn:E; [|reflexivity].
    apply id_eqb_eq in E. assert (x = d) by (apply (NoDup_map_eq get_id l); congruence).
    subst x. apply String.eqb_neq in Hk, Hk'. now rewrite Hk, Hk'. }
  clear Hnd Hin. unfold replace_by_id.
  induction l as [|x l IH]; simpl; [reflexivity|].
  rewrite (Hall x (or_introl eq_refl)).
  destruct (String.eqb (key x) e) eqn:Ex.
  - destruct (id_eqb (get_id x) (get_id d')) eqn:E; [|reflexivity].
    pose proof (Hall x (or_introl eq_refl)) as Hx. rewrite E in Hx. cbv beta in Hx.
    rewrite Ex in Hx. apply String.eqb_eq in Hx. contradiction.
  - apply IH. intros y Hy. apply Hall. now right.
Qed.

Lemma find_delete_other (e : string) (l : list D) (d : D) :
  NoDup (map get_id l) -> In d l -> key d <> e ->
  find (by_key e) (delete_by_id get_id d l) = find (by_key e) l.
Proof.
  intros Hnd Hin Hk.
  assert (Hall : forall x, In x l -> id_eqb (get_id x) (get_id d) = true ->
                           String.eqb (key x) e = false).
  { intros x Hx E. apply id_eqb_eq in E.
    assert (x = d) by (apply (NoDup_map_eq get_id l); congruence).
    subst x. now apply String.eqb_neq. }
  clear Hnd Hin. unfold delete_by_id.
  induction l as [|x l IH]; simpl; [reflexivity|].
  destruct (id_eqb (get_id x) (get_id d)) eqn:E; simpl.
  - rewrite (Hall x (or_introl eq_refl) E). apply IH. intros y Hy. apply Hall. now right.
  - destruct (String.eqb (key x) e); [reflexivity|].
    apply IH. intros y Hy. apply Hall. now right.
Qed.

Lemma length_replace_by_id (l : list D) (d : D) :
  List.length (replace_by_id get_id d l) = List.length l.
Proof. unfold replace_by_id. apply length_map. Qed.

End LookupFacts.

(** ** routers/auth.py: what signup stores *)

Section SignupEffect.
Context {L : Libs}.
Variables (env : Env) (d : Schemas.SignupRequest) (w : World) (dob : datetime) (h : string).

Local Abbreviation e := (Schemas.email d).
Local Abbreviation otp := (EmailServices.generate_otp (random env)).

Hypothesis Huser : Users.lookup e (users w) = None.
Hypothesis Hdob : strptime_ymd (Schemas.date_of_birth d) = Ok dob.
Hypothesis Hhash : Password.hash_password (entropy env) (Schemas.password d) = Ok h.
Hypothesis Hnorm : normalised e.

Lemma signup_new_eq :
  Pending.lookup e (pending_users w) = None ->
  Auth.signup env d w
  = (Ok (MessageResponse
           "OTP sent successfully! Please check your email to verify your account." e 10),
     mkWorld (users w)
       (pending_users w ++ [signup_record env d dob h None (next_id w)])
       (S (next_id w))
       (EvSendEmail e otp
          (EmailServices.send_otp_email (sendgrid env) e (Schemas.full_name d) otp)
        :: EvInsertPending e :: EvHashPassword :: EvFindPending e :: EvFindUser e
        :: trace w)).
Proof.
  intro Hp. run. rewrite Huser. cbn [users pending_users next_id trace].
  rewrite Hp, Hdob, Hhash. cbn [try_except].
  unfold Auth.new_PendingUser. rewrite Hnorm. reflexivity.
Qed.

Lemma signup_again_eq (p : PendingUser.t) :
  ids_ok w ->
  Pending.lookup e (pending_users w) = Some p ->
  Auth.signup env d w
  = (Ok (MessageResponse
           "OTP sent successfully! Please check your email to verify your account." e 10),
     mkWorld (users w)
       (replace_by_id PendingUser.id (signup_record env d dob h (Some p) (next_id w))
          (pending_users w))
       (next_id w)
       (EvSendEmail e otp
          (EmailServices.send_otp_email (sendgrid env) e (Schemas.full_name d) otp)
        :: EvSavePending e :: EvHashPassword :: EvFindPending e :: EvFindUser e
        :: trace w)).
Proof.
  intros Hids Hp. run. rewrite Huser. cbn [users pending_users next_id trace].
  rewrite Hp, Hdob, Hhash. cbn [try_except].
  destruct (ids_ok_pending_id w e p Hids Hp) as [n Hn].
  destruct (find_by_key PendingUser.email _ _ _ Hp) as [Hin Hk].
  cbn [PendingUser.id PendingUser.email PendingUser.full_name signup_record].
  rewrite Hn. cbn [users pending_users next_id trace].
  rewrite (has_id_In PendingUser.id p _ _ Hin) by (cbn; congruence).
  rewrite Hk. reflexivity.
Qed.

(** The record stored for the email after the signup, in both cases. *)
Lemma signup_lookup :
  ids_ok w ->
  Pending.lookup e (pending_users (snd (Auth.signup env d w)))
  = Some (signup_record env d dob h (Pending.lookup e (pending_users w)) (next_id w)).
Proof.
  intro Hids. destruct (Pending.lookup e (pending_users w)) as [p|] eqn:Hp.
  - rewrite (signup_again_eq p Hids Hp). cbn [snd pending_users].
    apply (find_replace_by_id PendingUser.id PendingUser.email) with (d := p);
      [exact Hp | reflexivity | reflexivity].
  - rewrite (signup_new_eq Hp). cbn [snd pending_users].
    now apply (find_snoc_new PendingUser.email).
Qed.


End SignupEffect.

Section SignupFlow.
Context {L : Libs} {C : Config}.


Lemma create_access_token_independent (now : datetime) (sub uid : string) (e : exn) :
  datetime_add now (timedelta_minutes ACCESS_TOKEN_EXPIRE_MINUTES) = Raise e ->
  Auth.create_access_token now sub uid = Raise e.
Proof. unfold Auth.create_access_token. now intros ->. Qed.



End SignupFlow.

(** ** utils/password.py, continued *)

Section PasswordMore.
Context {L : Libs}.

Lemma hash_password_inv (entropy : Z) (p h : string) :
  Password.hash_password entropy p = Ok h ->
  p <> ""
  /\ exists b, bcrypt_hashpw (encode_utf8 (sha256_hexdigest (encode_utf8 p)))
                 (bcrypt_gensalt 12 entropy) = Ok b
               /\ decode_utf8 b = Ok h.
Proof.
  unfold Password.hash_password. destruct p as [|c p]; [discriminate|]. cbn [py_not].
  intro H. split; [discriminate|].
  destruct (bcrypt_hashpw _ _) as [b|x]; [|discriminate H]. cbn in H.
  destruct (decode_utf8 b) as [h'|x] eqn:Hd; [|discriminate H]. cbn in H.
  injection H as <-. eauto.
Qed.

(** X7: hash_password raises nothing but ValueError: the empty password is
    refused with its own message, and whatever bcrypt or the decoding of
    its output raises comes back as a ValueError whose text starts with
    the fixed prefix. A hash it returns is the decoded output of bcrypt
    on the SHA-256 hex digest of the password, never of the password
    itself. *)
Theorem hash_password_raises_only_ValueError (entropy : Z) (password : string) :
  Password.hash_password entropy "" = Raise (ValueError "Password cannot be empty")
  /\ (forall e, Password.hash_password entropy password = Raise e ->
        exists m, e = ValueError m
                  /\ (password = "" \/ prefix "Password hashing failed: " m = true))
  /\ (forall h, Password.hash_password entropy password = Ok h ->
        password <> ""
        /\ exists b,
             bcrypt_hashpw (encode_utf8 (sha256_hexdigest (encode_utf8 password)))
               (bcrypt_gensalt 12 entropy) = Ok b
             /\ decode_utf8 b = Ok h).
Proof.
  split; [reflexivity | split].
  - intros e. unfold Password.hash_password. destruct password as [|c p]; cbn [py_not].
    + intro H. injection H as <-. eauto.
    + destruct (bcrypt_hashpw _ _) as [b|x]; cbn.
      * destruct (decode_utf8 b) as [h|x]; cbn; [discriminate|].
        intro H. injection H as <-. eexists. split; [reflexivity|]. right.
        cbn. destruct (str_exn x); reflexivity.
      * intro H. injection H as <-. eexists. split; [reflexivity|]. right.
        cbn. destruct (str_exn x); reflexivity.
  - apply hash_password_inv.
Qed.

Context {LS : LibsSpec L}.


End PasswordMore.

(** ** routers/auth.py: login, continued *)

Section LoginMore.
Context {L : Libs} {C : Config}.


Lemma login_world (env : Env) (l : Schemas.LoginRequest) (w : World) :
  snd (Auth.login env l w) = with_trace (EvFindUser (Schemas.login_email l) :: trace w) w.
Proof. run. repeat (case_branch; cbn [fst snd]); reflexivity. Qed.

Lemma login_ok_inv (env : Env) (l : Schemas.LoginRequest) (w : World) (r : Response) :
  fst (Auth.login env l w) = Ok r ->
  exists u h tok,
    Users.lookup (Schemas.login_email l) (users w) = Some u
    /\ User.hashed_password u = Some h
    /\ Password.verify_password (Schemas.login_password l) h = Ok true
    /\ User.is_email_verified u = true /\ User.is_active u = true
    /\ Auth.create_access_token (utcnow env) (User.email u) (str_of_id (User.id u)) = Ok tok
    /\ r = TokenResponse None tok "bearer" (User.email u) (User.full_name u)
             (User.organization_type u).
Proof.
  run.
  destruct (Users.lookup _ _) as [u|] eqn:Hu; cbn [fst]; [|discriminate].
  destruct (User.hashed_password u) as [h|] eqn:Hh; cbn [py_not_opt get_default fst];
    [|discriminate].
  destruct (py_not h); cbn [fst]; [discriminate|].
  destruct (Password.verify_password _ h) as [[|]|x] eqn:Hv; cbn [negb fst];
    try discriminate; try (destruct x; discriminate).
  destruct (User.is_email_verified u) eqn:Hver; cbn [negb fst]; [|discriminate].
  destruct (User.is_active u) eqn:Hact; cbn [negb fst]; [|discriminate].
  destruct (Auth.create_access_token _ _ _) as [tok|x] eqn:Htok; cbn [fst].
  - intro H. injection H as <-. exists u, h, tok. repeat split; assumption.
  - destruct x; discriminate.
Qed.

(** X8: login answers with a token only for an Identity that is stored
    under the email, has a password hash against which the password
    verifies, is verified and is active; the token response then carries
    that Identity's email, name and organization type. With a password
    that verifies, an unverified Identity is refused with 403 before the
    active flag is looked at, and a verified but inactive one with 403.
    Whatever the outcome, login writes nothing to the store. *)
Theorem login_token_only_for_verified_active (env : Env) (l : Schemas.LoginRequest)
    (w : World) :
  (forall r, fst (Auth.login env l w) = Ok r ->
     exists u h tok,
       Users.lookup (Schemas.login_email l) (users w) = Some u
       /\ User.hashed_password u = Some h
       /\ Password.verify_password (Schemas.login_password l) h = Ok true
       /\ User.is_email_verified u = true /\ User.is_active u = true
       /\ Auth.create_access_token (utcnow env) (User.email u) (str_of_id (User.id u)) = Ok tok
       /\ r = TokenResponse None tok "bearer" (User.email u) (User.full_name u)
                (User.organization_type u))
  /\ (forall u h,
        Users.lookup (Schemas.login_email l) (users w) = Some u ->
        User.hashed_password u = Some h ->
        Password.verify_password (Schemas.login_password l) h = Ok true ->
        (User.is_email_verified u = false ->
         fst (Auth.login env l w)
         = Raise (HTTPException 403 "Please verify your email before logging in"))
        /\ (User.is_email_verified u = true -> User.is_active u = false ->
            fst (Auth.login env l w) = Raise (HTTPException 403 "Account is inactive")))
  /\ users (snd (Auth.login env l w)) = users w
  /\ pending_users (snd (Auth.login env l w)) = pending_users w
  /\ next_id (snd (Auth.login env l w)) = next_id w.
Proof.
  split; [|split].
  - intro r. apply login_ok_inv.
  - intros u h Hu Hh Hv.
    assert (Hnot : py_not h = false).
    { destruct h; [|reflexivity]. unfold Password.verify_password in Hv.
      rewrite orb_true_r in Hv. discriminate Hv. }
    split.
    + intro Hver. run. rewrite Hu, Hh. cbn [py_not_opt get_default].
      rewrite Hnot, Hv, Hver. reflexivity.
    + intros Hver Hact. run. rewrite Hu, Hh. cbn [py_not_opt get_default].
      rewrite Hnot, Hv, Hver, Hact. reflexivity.
  - rewrite login_world. repeat split.
Qed.

End LoginMore.

Section RegisterThenLogin.
Context {L : Libs} {C : Config} {LS : LibsSpec L}.


End RegisterThenLogin.

(** ** routers/auth.py: resend_otp and the failure counter *)

Section ResendEffect.
Context {L : Libs} {C : Config}.




(** X11: a verification with a wrong code, for a registration that is
    neither expired nor locked, records exactly one more failure and
    nothing else: the answer is 400 with [5 - (attempts + 1)] attempts
    remaining, the stored record differs from the old one in the counter
    only, and the Identities, the other pending registrations and the
    identifier counter are unchanged. *)
Theorem wrong_code_counts_one_failure (env : Env) (v : Schemas.VerifyOTPRequest)
    (w : World) (p : PendingUser.t) :
  store_ok w ->
  Pending.lookup (Schemas.verify_email v) (pending_users w) = Some p ->
  PendingUser.is_otp_expired (utcnow env) p 10 = Ok false ->
  PendingUser.otp_attempts p < 5 ->
  Schemas.otp v <> PendingUser.otp_code p ->
  let w' := snd (Auth.verify_otp env v w) in
  let p' := PendingUser.with_otp_attempts (PendingUser.otp_attempts p + 1) p in
  fst (Auth.verify_otp env v w)
  = Raise (HTTPException 400
             ("Invalid OTP. " ++ str_of_Z (4 - PendingUser.otp_attempts p)
              ++ " attempts remaining."))
  /\ Pending.lookup (Schemas.verify_email v) (pending_users w') = Some p'
  /\ users w' = users w
  /\ next_id w' = next_id w
  /\ List.length (pending_users w') = List.length (pending_users w)
  /\ (forall e2, e2 <> Schemas.verify_email v ->
        Pending.lookup e2 (pending_users w') = Pending.lookup e2 (pending_users w)).
Proof.
  intros Hok Hp Hfresh Hlt Hne w' p'. pose proof Hok as [Hids _].
  pose proof Hids as (_ & _ & _ & Hnd).
  pose proof (verify_otp_wrong_eq env v w p Hp Hfresh Hids Hlt Hne) as Heq.
  cbv zeta in Heq. unfold w'. rewrite Heq. cbn [fst snd users pending_users next_id].
  destruct (find_by_key PendingUser.email _ _ _ Hp) as [Hin Hk].
  repeat split.
  - replace (5 - (PendingUser.otp_attempts p + 1)) with (4 - PendingUser.otp_attempts p)
      by lia. reflexivity.
  - now apply (find_replace_by_id PendingUser.id PendingUser.email) with (d := p).
  - apply length_replace_by_id.
  - intros e2 He2.
    apply (find_replace_other PendingUser.id PendingUser.email) with (d := p);
      auto; cbn; congruence.
Qed.

End ResendEffect.

(** ** routers/auth.py: google_callback, the stored Identity *)

Section GoogleEffect.
Context {L : Libs} {C : Config}.
Variables (env : Env) (idp : Provider) (code id_token e g : string) (c : Claims) (w : World).
Hypothesis Hexchange : get_access_token idp code = Ok (Some id_token).
Hypothesis Htoken : id_token <> "".
Hypothesis Hdecode : jwt_decode idp id_token = Ok c.
Hypothesis Hemail : claim_email c = Some e.
Hypothesis Hemail_ne : e <> "".
Hypothesis Hsub : claim_sub c = Some g.
Hypothesis Hsub_ne : g <> "".

Local Abbreviation success tok :=
  (RedirectResponse (FRONTEND_URL ++ "/auth/callback?token=" ++ tok)).
Local Abbreviation failure :=
  (RedirectResponse (FRONTEND_URL ++ "/auth/login?error=authentication_failed")).


Lemma google_callback_existing_eq (u : User.t) :
  ids_ok w -> Users.lookup e (users w) = Some u ->
  let linked := py_not_opt (User.google_id u) in
  let u' := if linked then User.with_google_id (Some g) u else u in
  Auth.google_callback env idp code w
  = (match Auth.create_access_token (utcnow env) (User.email u) (str_of_id (User.id u)) with
     | Ok tok => Ok (success tok)
     | Raise _ => Ok failure
     end,
     mkWorld (if linked then replace_by_id User.id u' (users w) else users w)
       (pending_users w) (next_id w)
       (if linked then EvSaveUser (User.email u) :: EvFindUser e :: trace w
        else EvFindUser e :: trace w)).
Proof.
  intros Hids Hl linked u'. run. rewrite Hexchange. cbn [py_not_opt get_default].
  apply py_not_false_iff in Htoken, Hemail_ne, Hsub_ne.
  rewrite Htoken, Hdecode, Hemail, Hsub. cbn [py_not_opt get_default].
  rewrite Hemail_ne, Hsub_ne. cbn [orb].
  destruct (py_not (if py_not (get_default (claim_name c) "") then _ else _));
    cbn [users pending_users next_id trace]; rewrite Hl.
  all: destruct (find_by_key User.email _ _ _ Hl) as [Hin Hk].
  all: destruct Hids as (Hf & _); destruct (Hf u Hin) as (n & Hn & _).
  all: unfold u', linked; destruct (py_not_opt (User.google_id u)) eqn:Hg.
  all: cbn [User.with_google_id User.id User.email]; try rewrite Hn;
    cbn [users pending_users next_id trace].
  all: try (rewrite (has_id_In User.id u (User.with_google_id (Some g) u) _ Hin)
              by reflexivity).
  all: cbn [User.with_google_id User.id User.email]; try rewrite Hn.
  all: destruct (Auth.create_access_token _ _ _); reflexivity.
Qed.


Lemma login_same_lookup (env2 : Env) (l : Schemas.LoginRequest) (w1 w2 : World) :
  Users.lookup (Schemas.login_email l) (users w2)
  = Users.lookup (Schemas.login_email l) (users w1) ->
  fst (Auth.login env2 l w2) = fst (Auth.login env2 l w1).
Proof. intro H. run. rewrite H. repeat (case_branch; cbn [fst snd]); reflexivity. Qed.

Lemma login_linked_lookup (env2 : Env) (l : Schemas.LoginRequest) (w1 w2 : World)
    (u : User.t) (x : option string) :
  Users.lookup (Schemas.login_email l) (users w1) = Some u ->
  Users.lookup (Schemas.login_email l) (users w2) = Some (User.with_google_id x u) ->
  fst (Auth.login env2 l w2) = fst (Auth.login env2 l w1).
Proof.
  intros H1 H2. run. rewrite H1, H2.
  cbn [User.with_google_id User.hashed_password User.is_email_verified User.is_active
       User.email User.id User.full_name User.organization_type].
  repeat (case_branch; cbn [fst snd]); reflexivity.
Qed.

(** X13: a federated login for an email that already has an Identity
    signs that Identity in: the token is issued for its email and
    identifier, and no Identity is added. An Identity without a google_id
    gets the subject claim recorded and keeps every other field; one that
    has a google_id is left exactly as it is, whether or not the subject
    claim equals it. The other Identities and the pending registrations
    are unchanged, and every password login is answered as before. *)
Theorem google_login_links_existing_identity (u : User.t) :
  ids_ok w -> Users.lookup e (users w) = Some u ->
  let w' := snd (Auth.google_callback env idp code w) in
  let u' := if py_not_opt (User.google_id u) then User.with_google_id (Some g) u else u in
  (forall tok,
     Auth.create_access_token (utcnow env) (User.email u) (str_of_id (User.id u)) = Ok tok ->
     fst (Auth.google_callback env idp code w) = Ok (success tok))
  /\ Users.lookup e (users w') = Some u'
  /\ (py_not_opt (User.google_id u) = false -> users w' = users w)
  /\ List.length (users w') = List.length (users w)
  /\ (forall e2, e2 <> e -> Users.lookup e2 (users w') = Users.lookup e2 (users w))
  /\ pending_users w' = pending_users w
  /\ next_id w' = next_id w
  /\ (forall env2 l, fst (Auth.login env2 l w') = fst (Auth.login env2 l w)).
Proof.
  intros Hids Hl w' u'.
  pose proof (google_callback_existing_eq u Hids Hl) as Heq. cbv zeta in Heq.
  destruct (find_by_key User.email _ _ _ Hl) as [Hin Hk].
  pose proof Hids as (_ & Hnd & _).
  assert (Hu : users w' = if py_not_opt (User.google_id u)
                          then replace_by_id User.id (User.with_google_id (Some g) u) (users w)
                          else users w).
  { unfold w'. rewrite Heq. cbn [snd users].
    destruct (py_not_opt (User.google_id u)); reflexivity. }
  assert (Hsame : Users.lookup e (users w') = Some u').
  { rewrite Hu. unfold u'. destruct (py_not_opt (User.google_id u)); [|exact Hl].
    now apply (find_replace_by_id User.id User.email) with (d := u). }
  assert (Hother : forall e2, e2 <> e ->
            Users.lookup e2 (users w') = Users.lookup e2 (users w)).
  { intros e2 Hne. rewrite Hu. destruct (py_not_opt (User.google_id u)); [|reflexivity].
    apply (find_replace_other User.id User.email) with (d := u);
      auto; cbn [User.with_google_id User.email]; congruence. }
  split; [|split; [exact Hsame | split; [|split; [|split; [exact Hother | split; [|split]]]]]].
  - intros tok Htok. rewrite Heq, Htok. reflexivity.
  - intro Hg. rewrite Hu, Hg. reflexivity.
  - rewrite Hu. destruct (py_not_opt (User.google_id u)); [|reflexivity].
    apply length_replace_by_id.
  - unfold w'. rewrite Heq. reflexivity.
  - unfold w'. rewrite Heq. reflexivity.
  - intros env2 l. destruct (String.eqb (Schemas.login_email l) e) eqn:E.
    + apply String.eqb_eq in E.
      unfold u' in Hsame. destruct (py_not_opt (User.google_id u)).
      * apply (login_linked_lookup env2 l w w' u (Some g)); rewrite E; assumption.
      * apply login_same_lookup. rewrite E. congruence.
    + apply String.eqb_neq in E. apply login_same_lookup. now apply Hother.
Qed.

End GoogleEffect.

(** ** routers/auth.py: get_current_user; routers/protected.py *)

(** Unfolds the dependency and the protected routes. *)
Ltac run_protected :=
  cbv [Protected.update_profile Protected.update_profile_body Protected.get_all_users
       AuthDeps.get_current_user
       try_catch bind log lift ret raise
       Users.find_one Users.insert Users.save];
  cbn [users pending_users next_id trace fst snd].

Section CurrentUser.
Context {C : Config}.
Variables (dec : TokenDecoder) (token : string) (w : World).

Local Abbreviation decoded := (jwt_decode_sub dec token SECRET_KEY ALGORITHM).

Lemma get_current_user_eq :
  AuthDeps.get_current_user dec token w
  = match decoded with
    | Raise e =>
        (Raise (if is_ExpiredSignatureError e then HTTPException 401 "Token has expired"
                else if is_JWTError e
                     then HTTPException 401 "Could not validate credentials"
                     else e), w)
    | Ok None => (Raise (HTTPException 401 "Invalid authentication credentials"), w)
    | Ok (Some email) =>
        (match Users.lookup email (users w) with
         | None => Raise (HTTPException 401 "User not found")
         | Some u => if User.is_active u then Ok u else Raise (HTTPException 400 "Inactive user")
         end,
         with_trace (EvFindUser email :: trace w) w)
    end.
Proof.
  run_protected. destruct decoded as [[email|]|e]; [| reflexivity |].
  - cbn [users]. destruct (Users.lookup email (users w)) as [u|]; [|reflexivity].
    destruct (User.is_active u); reflexivity.
  - destruct (is_ExpiredSignatureError e); [reflexivity|].
    destruct (is_JWTError e); reflexivity.
Qed.

Lemma get_current_user_store :
  let w' := snd (AuthDeps.get_current_user dec token w) in
  users w' = users w /\ pending_users w' = pending_users w /\ next_id w' = next_id w.
Proof.
  cbv zeta. rewrite get_current_user_eq.
  destruct decoded as [[email|]|e]; repeat split.
Qed.

Lemma get_current_user_ok_inv (u : User.t) :
  fst (AuthDeps.get_current_user dec token w) = Ok u ->
  exists email,
    decoded = Ok (Some email) /\ Users.lookup email (users w) = Some u
    /\ User.email u = email /\ User.is_active u = true.
Proof.
  rewrite get_current_user_eq. destruct decoded as [[email|]|e]; cbn [fst].
  - destruct (Users.lookup email (users w)) as [u0|] eqn:Hl; [|discriminate].
    destruct (User.is_active u0) eqn:Ha; [|discriminate].
    intro H. injection H as <-. exists email. repeat split; try assumption.
    now destruct (find_by_key User.email _ _ _ Hl).
  - discriminate.
  - destruct (is_ExpiredSignatureError e); [discriminate|].
    destruct (is_JWTError e); discriminate.
Qed.

(** X14: the bearer-token dependency returns a user only when the token
    decodes to a subject under which an active Identity is stored, and
    then returns that Identity. An expired token is answered 401 Token
    has expired, any other error of the JWT library 401 Could not
    validate credentials, a token without subject 401, a subject without
    Identity 401 User not found, an inactive Identity 400; an error that
    is not of the JWT library is passed on as it is. It writes nothing to
    the store. *)
Theorem get_current_user_outcomes :
  (forall u, fst (AuthDeps.get_current_user dec token w) = Ok u <->
     exists email, decoded = Ok (Some email) /\ Users.lookup email (users w) = Some u
                   /\ User.is_active u = true)
  /\ (forall e, decoded = Raise e ->
        fst (AuthDeps.get_current_user dec token w)
        = Raise (if is_ExpiredSignatureError e then HTTPException 401 "Token has expired"
                 else if is_JWTError e
                      then HTTPException 401 "Could not validate credentials"
                      else e))
  /\ (forall e, fst (AuthDeps.get_current_user dec token w) = Raise e ->
        is_JWTError e = false)
  /\ (decoded = Ok None ->
      fst (AuthDeps.get_current_user dec token w)
      = Raise (HTTPException 401 "Invalid authentication credentials"))
  /\ (forall email, decoded = Ok (Some email) ->
        (Users.lookup email (users w) = None ->
         fst (AuthDeps.get_current_user dec token w)
         = Raise (HTTPException 401 "User not found"))
        /\ (forall u, Users.lookup email (users w) = Some u -> User.is_active u = false ->
              fst (AuthDeps.get_current_user dec token w)
              = Raise (HTTPException 400 "Inactive user")))
  /\ users (snd (AuthDeps.get_current_user dec token w)) = users w
  /\ pending_users (snd (AuthDeps.get_current_user dec token w)) = pending_users w
  /\ next_id (snd (AuthDeps.get_current_user dec token w)) = next_id w.
Proof.
  split; [|split; [|split; [|split; [|split]]]].
  - intro u. split.
    + intro H. destruct (get_current_user_ok_inv u H) as (email & Hd & Hl & _ & Ha).
      exists email. auto.
    + intros (email & Hd & Hl & Ha). rewrite get_current_user_eq, Hd. cbn [fst].
      rewrite Hl, Ha. reflexivity.
  - intros e Hd. rewrite get_current_user_eq, Hd. reflexivity.
  - intro e. rewrite get_current_user_eq. destruct decoded as [[email|]|x]; cbn [fst].
    + destruct (Users.lookup email (users w)) as [u|]; [destruct (User.is_active u)|];
        intro H; try discriminate H; injection H as <-; reflexivity.
    + intro H. injection H as <-. reflexivity.
    + destruct (is_ExpiredSignatureError x); [intro H; injection H as <-; reflexivity|].
      destruct (is_JWTError x) eqn:Hj; intro H; injection H as <-; [reflexivity|exact Hj].
  - intro Hd. rewrite get_current_user_eq, Hd. reflexivity.
  - intros email Hd. split.
    + intro Hl. rewrite get_current_user_eq, Hd. cbn [fst]. rewrite Hl. reflexivity.
    + intros u Hl Ha. rewrite get_current_user_eq, Hd. cbn [fst]. rewrite Hl, Ha.
      reflexivity.
  - exact get_current_user_store.
Qed.

End CurrentUser.

Section Session.
Context {L : Libs} {C : Config}.

(** X15: the token a login returns authenticates the Identity that
    logged in. If login answers with a token, and the decoder reads the
    subject the token was issued for, then the dependency, run on the
    store the login leaves, returns the Identity stored under the login
    email, whose email, name and organization type the login response
    carries. *)
Theorem login_token_authenticates (env : Env) (l : Schemas.LoginRequest)
    (dec : TokenDecoder) (w : World) (m : option string) (tok ty em fn ot : string) :
  fst (Auth.login env l w) = Ok (TokenResponse m tok ty em fn ot) ->
  jwt_decode_sub dec tok SECRET_KEY ALGORITHM = Ok (Some em) ->
  exists u,
    Users.lookup (Schemas.login_email l) (users w) = Some u
    /\ em = Schemas.login_email l
    /\ fst (AuthDeps.get_current_user dec tok (snd (Auth.login env l w))) = Ok u
    /\ (em, fn, ot) = (User.email u, User.full_name u, User.organization_type u).
Proof.
  intros Hlogin Hdec.
  destruct (login_ok_inv env l w _ Hlogin) as (u & h & tok' & Hl & _ & _ & _ & Ha & _ & Hr).
  injection Hr as -> -> -> -> -> ->.
  destruct (find_by_key User.email _ _ _ Hl) as [_ Hk].
  exists u. repeat split; try assumption.
  rewrite get_current_user_eq, Hdec. cbn [fst]. rewrite login_world. cbn [with_trace users].
  rewrite Hk, Hl, Ha. reflexivity.
Qed.

End Session.

Section Profile.
Context {C : Config}.
Variables (env : Env) (dec : TokenDecoder) (token : string) (w : World).
Variables (full_name organization_name : option string).

Lemma update_profile_failed (e : exn) :
  fst (AuthDeps.get_current_user dec token w) = Raise e ->
  Protected.update_profile env dec token full_name organization_name w
  = (Raise e, snd (AuthDeps.get_current_user dec token w)).
Proof.
  intro H. unfold Protected.update_profile, bind.
  destruct (AuthDeps.get_current_user dec token w) as [[u|x] w']; cbn [fst snd] in *;
    [discriminate | congruence].
Qed.

Lemma update_profile_eq (email : string) (u : User.t) :
  ids_ok w ->
  jwt_decode_sub dec token SECRET_KEY ALGORITHM = Ok (Some email) ->
  Users.lookup email (users w) = Some u -> User.is_active u = true ->
  let u' := User.mk (User.id u) (User.email u)
              (match full_name with Some n => n | None => User.full_name u end)
              (User.date_of_birth u) (User.organization_type u)
              (match organization_name with
               | Some n => Some n
               | None => User.organization_name u
               end)
              (User.hashed_password u) (User.google_id u) (User.is_email_verified u)
              (User.is_active u) (User.is_superuser u) (User.created_at u)
              (Some (utcnow env)) in
  Protected.update_profile env dec token full_name organization_name w
  = (Ok (ProfileUpdated "Profile updated successfully" (User.email u)
           (User.full_name u') (User.organization_name u')),
     mkWorld (replace_by_id User.id u' (users w)) (pending_users w) (next_id w)
       (EvSaveUser (User.email u) :: EvFindUser email :: trace w)).
Proof.
  intros Hids Hd Hl Ha u'.
  destruct (find_by_key User.email _ _ _ Hl) as [Hin Hk].
  destruct Hids as (Hf & _). destruct (Hf u Hin) as (n & Hn & _).
  unfold Protected.update_profile, bind. rewrite get_current_user_eq, Hd, Hl, Ha.
  run_protected.
  assert (Hu : Protected.with_updated_at (Some (utcnow env))
                 match organization_name with
                 | Some n0 =>
                     Protected.with_organization_name (Some n0)
                       match full_name with
                       | Some n1 => Protected.with_full_name n1 u
                       | None => u
                       end
                 | None => match full_name with
                           | Some n0 => Protected.with_full_name n0 u
                           | None => u
                           end
                 end = u').
  { unfold u'. destruct organization_name, full_name; reflexivity. }
  rewrite Hu. cbn [User.id u']. rewrite Hn. cbn [with_trace users pending_users next_id trace].
  rewrite (has_id_In User.id u u' _ Hin) by reflexivity.
  reflexivity.
Qed.

(** X16: update_profile, for a token the dependency accepts, rewrites
    the caller's own Identity and nothing else: the stored Identity keeps
    its identifier, email, date of birth, organization type, password
    hash, google_id, flags and creation time; the name and the
    organization name become the given values where one is given (any
    string, also the empty one) and stay as they were where none is; the
    update time becomes the time of the request. The other Identities,
    the pending registrations and the identifier counter are unchanged.
    When the dependency refuses the token, its error is the answer and
    nothing is written. *)
Theorem update_profile_rewrites_own_names (email : string) (u : User.t) :
  ids_ok w ->
  jwt_decode_sub dec token SECRET_KEY ALGORITHM = Ok (Some email) ->
  Users.lookup email (users w) = Some u -> User.is_active u = true ->
  let r := Protected.update_profile env dec token full_name organization_name w in
  let u' := User.mk (User.id u) (User.email u)
              (match full_name with Some n => n | None => User.full_name u end)
              (User.date_of_birth u) (User.organization_type u)
              (match organization_name with
               | Some n => Some n
               | None => User.organization_name u
               end)
              (User.hashed_password u) (User.google_id u) (User.is_email_verified u)
              (User.is_active u) (User.is_superuser u) (User.created_at u)
              (Some (utcnow env)) in
  fst r = Ok (ProfileUpdated "Profile updated successfully" (User.email u)
                (User.full_name u') (User.organization_name u'))
  /\ Users.lookup email (users (snd r)) = Some u'
  /\ List.length (users (snd r)) = List.length (users w)
  /\ (forall e2, e2 <> email ->
        Users.lookup e2 (users (snd r)) = Users.lookup e2 (users w))
  /\ pending_users (snd r) = pending_users w
  /\ next_id (snd r) = next_id w.
Proof.
  intros Hids Hd Hl Ha r u'.
  pose proof (update_profile_eq email u Hids Hd Hl Ha) as Heq. cbv zeta in Heq.
  destruct (find_by_key User.email _ _ _ Hl) as [Hin Hk].
  pose proof Hids as (_ & Hnd & _).
  unfold r. rewrite Heq. cbn [fst snd users pending_users next_id].
  repeat split.
  - now apply (find_replace_by_id User.id User.email) with (d := u).
  - apply length_replace_by_id.
  - intros e2 Hne.
    apply (find_replace_other User.id User.email) with (d := u);
      auto; cbn [User.email]; congruence.
Qed.

(** X17: the protected routes run behind the dependency: when it refuses
    the token, update_profile and get_all_users answer with its error and
    the store is as before. When it accepts, get_all_users reports the
    number of stored Identities and one entry per Identity, in store
    order, whoever the caller is: the superuser flag of the caller is not
    looked at. get_all_users never writes. *)
Theorem protected_routes_guarded :
  (forall e, fst (AuthDeps.get_current_user dec token w) = Raise e ->
     fst (Protected.update_profile env dec token full_name organization_name w) = Raise e
     /\ users (snd (Protected.update_profile env dec token full_name organization_name w))
        = users w
     /\ fst (Protected.get_all_users dec token w) = Raise e)
  /\ (forall u, fst (AuthDeps.get_current_user dec token w) = Ok u ->
        fst (Protected.get_all_users dec token w)
        = Ok (UserList (List.length (users w)) (map Protected.summary (users w))))
  /\ users (snd (Protected.get_all_users dec token w)) = users w
  /\ pending_users (snd (Protected.get_all_users dec token w)) = pending_users w
  /\ next_id (snd (Protected.get_all_users dec token w)) = next_id w.
Proof.
  pose proof (get_current_user_store dec token w) as Hs. cbv zeta in Hs.
  destruct Hs as (Hu & Hp & Hn).
  unfold Protected.get_all_users, bind.
  split; [|split].
  - intros e He. rewrite (update_profile_failed e He). cbn [fst snd].
    destruct (AuthDeps.get_current_user dec token w) as [[u|x] w']; cbn [fst snd] in *;
      [discriminate|]. repeat split; congruence.
  - intros u Hok.
    destruct (AuthDeps.get_current_user dec token w) as [[u0|x] w']; cbn [fst snd] in *;
      [|discriminate]. now rewrite Hu.
  - destruct (AuthDeps.get_current_user dec token w) as [[u0|x] w']; cbn [fst snd] in *;
      auto.
Qed.

End Profile.

(** ** What every stored document looks like *)

Section DocumentFacts.

Lemma pending_ok_generated (random : nat -> Z) i e fn dob ot on hp t c :
  pending_ok (PendingUser.mk i e fn dob ot on hp (EmailServices.generate_otp random) t 0 c).
Proof.
  destruct (generate_otp_shape random) as (Hlen & Hdec).
  unfold pending_ok. cbn [PendingUser.otp_attempts PendingUser.otp_code].
  repeat split; try assumption; lia.
Qed.

Lemma In_snoc {A : Type} (x y : A) (l : list A) : In x (l ++ [y]) -> In x l \/ x = y.
Proof. intro H. apply in_app_or in H as [H|[H|[]]]; auto. Qed.

Lemma In_replace_cases {D : Type} (get_id : D -> option nat) (x d : D) (l : list D) :
  In x (replace_by_id get_id d l) -> In x l \/ x = d.
Proof.
  unfold replace_by_id. intro H. apply in_map_iff in H as (y & Hy & Hin).
  destruct (id_eqb (get_id y) (get_id d)); subst; auto.
Qed.

Lemma In_delete_cases {D : Type} (get_id : D -> option nat) (x d : D) (l : list D) :
  In x (delete_by_id get_id d l) -> In x l.
Proof. unfold delete_by_id. intro H. now apply filter_In in H as [H _]. Qed.

End DocumentFacts.

(** Turns the construction of a document into its fields. *)
Ltac invert_new :=
  repeat match goal with
  | H : Auth.new_PendingUser _ _ _ _ _ _ _ _ _ _ = Ok _ |- _ =>
      unfold Auth.new_PendingUser, rbind in H;
      destruct (validate_email _) in H; [injection H as <- | discriminate H]
  | H : Auth.new_User _ _ _ _ _ _ _ _ _ _ _ = Ok _ |- _ =>
      unfold Auth.new_User, rbind in H;
      destruct (validate_email _) in H; [injection H as <- | discriminate H]
  end.

(** Reduces membership in a written collection to membership in the old
    one or equality with the written document. *)
Ltac member_cases H :=
  first
  [ apply In_snoc in H as [H| ->]
  | apply In_replace_cases in H as [H| ->]
  | apply In_delete_cases in H ].

Ltac documents_step Hu Hp :=
  split; cbn [users pending_users]; intros x Hx;
  try member_cases Hx;
  try (apply Hu; assumption); try (apply Hp; assumption).

Section DocumentInvariant.
Context {L : Libs} {C : Config}.

Lemma signup_documents_ok env d w :
  documents_ok w -> documents_ok (snd (Auth.signup env d w)).
Proof.
  intros [Hu Hp]. crunch; invert_new; documents_step Hu Hp.
  all: cbn [PendingUser.with_id]; apply pending_ok_generated.
Qed.

Lemma resend_otp_documents_ok env r w :
  documents_ok w -> documents_ok (snd (Auth.resend_otp env r w)).
Proof.
  intros [Hu Hp]. crunch; documents_step Hu Hp.
  all: apply pending_ok_generated.
Qed.

Lemma login_documents_ok env l w :
  documents_ok w -> documents_ok (snd (Auth.login env l w)).
Proof. intros [Hu Hp]. crunch; documents_step Hu Hp. Qed.

Lemma verify_otp_documents_ok env v w :
  documents_ok w -> documents_ok (snd (Auth.verify_otp env v w)).
Proof.
  intros [Hu Hp]. crunch; invert_new; documents_step Hu Hp.
  all: try (unfold identity_ok; cbn; repeat split; left; discriminate).
  all: match goal with
       | Hin : In ?p (pending_users _), Hlock : PendingUser.is_locked ?p _ = false |- _ =>
           destruct (Hp p Hin) as ((H0 & H5) & Hlen & Hdec);
           unfold PendingUser.is_locked in Hlock; apply Z.leb_gt in Hlock;
           unfold pending_ok;
           cbn [PendingUser.otp_attempts PendingUser.otp_code
                PendingUser.with_otp_attempts PendingUser.with_id];
           repeat split; try assumption; lia
       end.
Qed.

Lemma google_callback_documents_ok env idp code w :
  documents_ok w -> documents_ok (snd (Auth.google_callback env idp code w)).
Proof.
  intros [Hu Hp]. crunch; invert_new; documents_step Hu Hp.
  all: match goal with
       | H : _ || py_not_opt (claim_sub ?c) = false |- _ =>
           apply orb_false_elim in H as [_ Hsub]
       end.
  all: try match goal with
       | Hin : In ?t (users _) |- _ => destruct (Hu t Hin) as (Hv & Ha & Hs & _)
       end.
  all: unfold identity_ok;
    cbn [User.is_email_verified User.is_active User.is_superuser User.hashed_password
         User.google_id User.with_id User.with_google_id];
    repeat split; try assumption; right; assumption.
Qed.

End DocumentInvariant.

Ltac crunch_protected :=
  run_protected;
  cbn [Protected.with_updated_at Protected.with_organization_name Protected.with_full_name
       User.id User.email];
  repeat (case_branch; cbn [fst snd users pending_users next_id]);
  found_facts;
  cbn [Protected.with_updated_at Protected.with_organization_name Protected.with_full_name
       User.id User.email User.with_id] in *;
  try absurd_branch.

Section ProtectedInvariant.
Context {L : Libs} {C : Config}.

Lemma update_profile_store_ok env dec token fn on w :
  store_ok w -> store_ok (snd (Protected.update_profile env dec token fn on w)).
Proof.
  intros Hw. pose proof Hw as [(Hfu & Hnu & Hfp & Hnp) Hup].
  unfold pending_unique in Hup. crunch_protected; finish.
Qed.

Lemma get_all_users_world dec token w :
  snd (Protected.get_all_users dec token w) = snd (AuthDeps.get_current_user dec token w).
Proof.
  unfold Protected.get_all_users, bind.
  destruct (AuthDeps.get_current_user dec token w) as [[u|x] w']; reflexivity.
Qed.

Lemma get_current_user_store_ok dec token w :
  store_ok w -> store_ok (snd (AuthDeps.get_current_user dec token w)).
Proof.
  intros Hw. rewrite get_current_user_eq.
  destruct (jwt_decode_sub dec token SECRET_KEY ALGORITHM) as [[email|]|e]; exact Hw.
Qed.

Lemma get_current_user_documents_ok dec token w :
  documents_ok w -> documents_ok (snd (AuthDeps.get_current_user dec token w)).
Proof.
  intros Hw. rewrite get_current_user_eq.
  destruct (jwt_decode_sub dec token SECRET_KEY ALGORITHM) as [[email|]|e]; exact Hw.
Qed.

Lemma update_profile_documents_ok env dec token fn on w :
  documents_ok w -> documents_ok (snd (Protected.update_profile env dec token fn on w)).
Proof.
  intros [Hu Hp]. crunch_protected; documents_step Hu Hp.
  all: match goal with
       | Hin : In ?t (users _) |- _ => destruct (Hu t Hin) as (Hv & Ha & Hs & Hc)
       end.
  all: unfold identity_ok;
    cbn [User.is_email_verified User.is_active User.is_superuser User.hashed_password
         User.google_id User.with_id];
    repeat split; assumption.
Qed.

Lemma request_store_ok w w' : request w w' -> store_ok w -> store_ok w'.
Proof.
  intros [w0 w1 Hstep | env dec token fn on w0 | dec token w0] Hw.
  - destruct Hstep.
    + now apply signup_store_ok.
    + now apply verify_otp_store_ok.
    + now apply resend_otp_store_ok.
    + now apply login_store_ok.
    + now apply google_callback_store_ok.
  - now apply update_profile_store_ok.
  - rewrite get_all_users_world. now apply get_current_user_store_ok.
Qed.

Lemma request_documents_ok w w' : request w w' -> documents_ok w -> documents_ok w'.
Proof.
  intros [w0 w1 Hstep | env dec token fn on w0 | dec token w0] Hw.
  - destruct Hstep.
    + now apply signup_documents_ok.
    + now apply verify_otp_documents_ok.
    + now apply resend_otp_documents_ok.
    + now apply login_documents_ok.
    + now apply google_callback_documents_ok.
  - now apply update_profile_documents_ok.
  - rewrite get_all_users_world. now apply get_current_user_documents_ok.
Qed.

Lemma served_invariants (w : World) : served w -> store_ok w /\ documents_ok w.
Proof.
  induction 1 as [|w w' _ [IHs IHd] Hreq].
  - split; [|split; intros x []].
    apply store_ok_intro; try constructor; intros x [].
  - split; [now apply (request_store_ok w) | now apply (request_documents_ok w)].
Qed.

(** X18: every store the modelled routes can produce from the empty one
    is well formed. Identifiers are issued once; there is at most one
    pending registration per email; every Identity is verified, active,
    not a superuser, and has a password hash or a provider subject; every
    pending registration carries a code of six decimal digits and a
    failure counter between 0 and 5. In particular no request creates a
    superuser or deactivates an Identity. *)
Theorem served_store_well_formed (w : World) :
  served w ->
  store_ok w /\ documents_ok w
  /\ (forall u, In u (users w) ->
        User.is_superuser u = false /\ User.is_active u = true
        /\ User.is_email_verified u = true)
  /\ (forall p, In p (pending_users w) ->
        0 <= PendingUser.otp_attempts p <= 5
        /\ all_decimal (PendingUser.otp_code p) = true).
Proof.
  intro H. destruct (served_invariants w H) as [Hs [Hu Hp]].
  split; [exact Hs | split; [split; assumption | split]].
  - intros u Hx. destruct (Hu u Hx) as (Hv & Ha & Hsu & _). auto.
  - intros p Hx. destruct (Hp p Hx) as (Hatt & _ & Hdec). auto.
Qed.


End ProtectedInvariant.

(** ** POST /auth/signup, from the request body to the status code *)

Section SignupEndpoint.
Context {L : Libs} {C : Config} {LS : LibsSpec L}.

Lemma post_signup_valid (now : datetime) (env : Env) (body d : Schemas.SignupRequest)
    (w : World) :
  Schemas.validate_SignupRequest now body = Schemas.Valid d ->
  post_signup now env body w
  = (reply_of (fst (Auth.signup env d w)), snd (Auth.signup env d w)).
Proof.
  intro H. unfold post_signup. rewrite H.
  destruct (Auth.signup env d w); reflexivity.
Qed.

(** X19: the statuses of POST /auth/signup. A body that fails
    validation is answered 422 and nothing is stored or sent. A body that
    passes is answered 400 when an Identity has its email, with nothing
    stored, and 200 otherwise, with a pending registration stored under
    the email: for a validated body the date always parses and the
    password always hashes, so the handler's other error branches are not
    taken, whatever the mail provider answers. *)
Theorem post_signup_statuses (now : datetime) (env : Env) (body : Schemas.SignupRequest)
    (w : World) :
  (forall e e', validate_email e = Ok e' -> validate_email e' = Ok e') ->
  store_ok w ->
  (forall errors,
     Schemas.validate_SignupRequest now body = Schemas.ValidationError errors ->
     post_signup now env body w = (ValidationReply 422 errors, w))
  /\ (forall d,
        Schemas.validate_SignupRequest now body = Schemas.Valid d ->
        (forall u, Users.lookup (Schemas.email d) (users w) = Some u ->
           fst (post_signup now env body w)
           = ErrorReply 400 "Email already registered. Please login or use a different email."
           /\ users (snd (post_signup now env body w)) = users w
           /\ pending_users (snd (post_signup now env body w)) = pending_users w)
        /\ (Users.lookup (Schemas.email d) (users w) = None ->
            fst (post_signup now env body w)
            = Reply 200
                (MessageResponse
                   "OTP sent successfully! Please check your email to verify your account."
                   (Schemas.email d) 10)
            /\ exists p,
                 Pending.lookup (Schemas.email d)
                   (pending_users (snd (post_signup now env body w))) = Some p
                 /\ PendingUser.otp_code p = EmailServices.generate_otp (random env)
                 /\ PendingUser.otp_attempts p = 0))
  /\ In (status_of (fst (post_signup now env body w))) [200; 400; 422].
Proof.
  intros Hidem Hok.
  assert (Hvalid : forall d,
    Schemas.validate_SignupRequest now body = Schemas.Valid d ->
    Users.lookup (Schemas.email d) (users w) = None ->
    exists dob h,
      strptime_ymd (Schemas.date_of_birth d) = Ok dob
      /\ Password.hash_password (entropy env) (Schemas.password d) = Ok h
      /\ normalised (Schemas.email d)).
  { intros d Hd Hu.
    destruct (validate_SignupRequest_valid now body d Hd)
      as (He & Hdob & (dob & Hparse & _) & Hpw & Hlen & _).
    destruct (hash_password_ok (entropy env) (Schemas.password d)) as (h & Hh & _).
    { rewrite Hpw. intro E. rewrite E in Hlen. cbn in Hlen. lia. }
    exists dob, h. repeat split; [now rewrite Hdob | exact Hh |].
    unfold normalised. now apply (Hidem (Schemas.email body)). }
  split; [|split].
  - intros errors H. unfold post_signup. now rewrite H.
  - intros d Hd. rewrite (post_signup_valid now env body d w Hd). cbn [fst snd]. split.
    + intros u Hu. rewrite (signup_already_registered env d w u Hu). repeat split.
    + intro Hu. destruct (Hvalid d Hd Hu) as (dob & h & Hparse & Hh & Hn).
      rewrite (signup_ok env d w dob h Hu Hparse Hh Hn). split; [reflexivity|].
      destruct Hok as [Hids _].
      exists (signup_record env d dob h (Pending.lookup (Schemas.email d) (pending_users w))
                (next_id w)).
      split; [now apply signup_lookup|].
      destruct (Pending.lookup (Schemas.email d) (pending_users w)); split; reflexivity.
  - destruct (Schemas.validate_SignupRequest now body) as [d|errors] eqn:Hd.
    + rewrite (post_signup_valid now env body d w Hd). cbn [fst].
      destruct (Users.lookup (Schemas.email d) (users w)) as [u|] eqn:Hu.
      * rewrite (signup_already_registered env d w u Hu). cbn. auto.
      * destruct (Hvalid d eq_refl Hu) as (dob & h & Hparse & Hh & Hn).
        rewrite (signup_ok env d w dob h Hu Hparse Hh Hn). cbn. auto.
    + unfold post_signup. rewrite Hd. cbn. auto.
Qed.

End SignupEndpoint.

(** ** The properties on Asha's registration *)

Lemma empty_world_store_ok : store_ok empty_world.
Proof. apply store_ok_intro; try constructor; intros d []. Qed.

Lemma journey_after_signup_store_ok : store_ok Scenario.after_signup.
Proof.
  apply (reachable_store_ok (L := Stub.libs) (C := Stub.config)).
  apply reachable_step with (w := empty_world); [constructor|].
  exact (step_signup (L := Stub.libs) (C := Stub.config) Journey.start Scenario.asha
           empty_world eq_refl).
Qed.

Lemma journey_after_verify_store_ok : store_ok Scenario.after_verify.
Proof.
  apply (verify_otp_store_ok (L := Stub.libs) (C := Stub.config)).
  exact journey_after_signup_store_ok.
Qed.





(** A first wrong code, one minute after signing up. *)
Lemma wrong_code_counts_one_failure_witness :
  let w := Scenario.after_signup in
  let w' := snd (Scenario.verify_otp Journey.soon Scenario.bad_code w) in
  fst (Scenario.verify_otp Journey.soon Scenario.bad_code w)
  = Raise (HTTPException 400 "Invalid OTP. 4 attempts remaining.")
  /\ Pending.lookup "a@x.com" (pending_users w') = Some (Scenario.asha_pending 1)
  /\ users w' = users w
  /\ next_id w' = next_id w
  /\ List.length (pending_users w') = List.length (pending_users w)
  /\ (forall e2, e2 <> "a@x.com" ->
        Pending.lookup e2 (pending_users w') = Pending.lookup e2 (pending_users w)).
Proof.
  assert (Hlt : PendingUser.otp_attempts (Scenario.asha_pending 0) < 5) by reflexivity.
  assert (Hne : Schemas.otp Scenario.bad_code <> PendingUser.otp_code (Scenario.asha_pending 0))
    by discriminate.
  exact (wrong_code_counts_one_failure (L := Stub.libs) (C := Stub.config)
           Journey.soon Scenario.bad_code Scenario.after_signup (Scenario.asha_pending 0)
           journey_after_signup_store_ok eq_refl eq_refl Hlt Hne).
Defined.


(** Google vouches for her address after she has registered with a
    password: her Identity gets the subject, and her password still
    works. *)
Lemma google_login_links_existing_identity_witness :
  let w := Scenario.after_verify in
  let w' := snd (Scenario.google_callback Scenario.later Scenario.google "auth-code" w) in
  let u' := User.with_google_id (Some "google-sub-1") Scenario.asha_user in
  (forall tok,
     Auth.create_access_token (L := Stub.libs) (C := Stub.config)
       (utcnow Scenario.later) "a@x.com" "1" = Ok tok ->
     fst (Scenario.google_callback Scenario.later Scenario.google "auth-code" w)
     = Ok (RedirectResponse ("http://localhost:3000/auth/callback?token=" ++ tok)))
  /\ Users.lookup "a@x.com" (users w') = Some u'
  /\ (true = false -> users w' = users w)
  /\ List.length (users w') = List.length (users w)
  /\ (forall e2, e2 <> "a@x.com" -> Users.lookup e2 (users w') = Users.lookup e2 (users w))
  /\ pending_users w' = pending_users w
  /\ next_id w' = next_id w
  /\ (forall env2 l, fst (Scenario.login env2 l w') = fst (Scenario.login env2 l w)).
Proof.
  assert (Htoken : "id-token" <> "") by discriminate.
  assert (Hemail : "a@x.com" <> "") by discriminate.
  assert (Hsub : "google-sub-1" <> "") by discriminate.
  exact (google_login_links_existing_identity (L := Stub.libs) (C := Stub.config)
           Scenario.later Scenario.google "auth-code" "id-token" "a@x.com" "google-sub-1"
           (mkClaims (Some "a@x.com") (Some "google-sub-1") (Some "Asha Rao") None None)
           Scenario.after_verify eq_refl Htoken eq_refl eq_refl Hemail eq_refl Hsub
           Scenario.asha_user (proj1 journey_after_verify_store_ok) eq_refl).
Defined.

(** She logs in and presents the token. *)
Lemma login_token_authenticates_witness :
  exists u,
    Users.lookup "a@x.com" (users Scenario.after_verify) = Some u
    /\ "a@x.com" = "a@x.com"
    /\ fst (Journey.get_current_user (Journey.token_at (Scenario.t0 + 120000000) 1)
              (snd (Scenario.login Scenario.later Journey.asha_login Scenario.after_verify)))
       = Ok u
    /\ ("a@x.com", "Asha Rao", "student")
       = (User.email u, User.full_name u, User.organization_type u).
Proof.
  exact (login_token_authenticates (L := Stub.libs) (C := Stub.config)
           Scenario.later Journey.asha_login Journey.decoder Scenario.after_verify None
           (Journey.token_at (Scenario.t0 + 120000000) 1) "bearer" "a@x.com" "Asha Rao"
           "student" eq_refl eq_refl).
Defined.

(** She changes her name and leaves the organization name alone. *)
Lemma update_profile_rewrites_own_names_witness :
  let r := Journey.update_profile Journey.afterwards
             (Journey.token_at (Scenario.t0 + 120000000) 1) (Some "Asha R.") None
             Scenario.after_verify in
  let u' := User.mk (Some 1%nat) "a@x.com" "Asha R." (Some Journey.dob) "student" None
              (Some Journey.hashed) None true true false (Scenario.t0 + 60000000)
              (Some (Scenario.t0 + 180000000)) in
  fst r = Ok (ProfileUpdated "Profile updated successfully" "a@x.com" "Asha R." None)
  /\ Users.lookup "a@x.com" (users (snd r)) = Some u'
  /\ List.length (users (snd r)) = 1%nat
  /\ (forall e2, e2 <> "a@x.com" ->
        Users.lookup e2 (users (snd r)) = Users.lookup e2 (users Scenario.after_verify))
  /\ pending_users (snd r) = []
  /\ next_id (snd r) = 2%nat.
Proof.
  exact (update_profile_rewrites_own_names (C := Stub.config)
           Journey.afterwards Journey.decoder (Journey.token_at (Scenario.t0 + 120000000) 1)
           Scenario.after_verify (Some "Asha R.") None "a@x.com" Scenario.asha_user
           (proj1 journey_after_verify_store_ok) eq_refl eq_refl eq_refl).
Defined.

Lemma journey_after_verify_served :
  served (L := Stub.libs) (C := Stub.config) Scenario.after_verify.
Proof.
  apply served_request with (w := Scenario.after_signup).
  - apply served_request with (w := empty_world); [constructor|].
    apply request_auth.
    exact (step_signup (L := Stub.libs) (C := Stub.config) Journey.start Scenario.asha
             empty_world eq_refl).
  - apply request_auth.
    exact (step_verify_otp (L := Stub.libs) (C := Stub.config) Journey.soon
             Scenario.good_code Scenario.after_signup).
Qed.

Lemma journey_renamed_served : served (L := Stub.libs) (C := Stub.config) Journey.renamed.
Proof.
  apply served_request with (w := Scenario.after_verify);
    [exact journey_after_verify_served|].
  exact (request_update_profile (L := Stub.libs) (C := Stub.config) Journey.afterwards
           Journey.decoder (Journey.token_at (Scenario.t0 + 120000000) 1)
           (Some "Asha R.") None Scenario.after_verify).
Qed.

(** The store after she has signed up, confirmed and changed her name. *)
Lemma served_store_well_formed_witness :
  store_ok Journey.renamed /\ documents_ok Journey.renamed
  /\ (forall u, In u (users Journey.renamed) ->
        User.is_superuser u = false /\ User.is_active u = true
        /\ User.is_email_verified u = true)
  /\ (forall p, In p (pending_users Journey.renamed) ->
        0 <= PendingUser.otp_attempts p <= 5
        /\ all_decimal (PendingUser.otp_code p) = true).
Proof.
  exact (served_store_well_formed (L := Stub.libs) (C := Stub.config) Journey.renamed
           journey_renamed_served).
Defined.

Lemma stub_validate_email_idempotent (e e' : string) :
  validate_email (Libs := Stub.libs) e = Ok e' ->
  validate_email (Libs := Stub.libs) e' = Ok e'.
Proof.
  cbn. unfold Stub.validate_email. destruct (contains "@" e) eqn:E; [|discriminate].
  intro H. injection H as <-. now rewrite E.
Qed.

(** Her signup, sent to the empty store. *)
Lemma post_signup_statuses_witness :
  let now := Scenario.t0 in
  let r := Journey.post_signup now Journey.start Scenario.asha empty_world in
  (forall errors,
     Schemas.validate_SignupRequest (L := Stub.libs) now Scenario.asha
     = Schemas.ValidationError errors ->
     r = (ValidationReply 422 errors, empty_world))
  /\ (forall d,
        Schemas.validate_SignupRequest (L := Stub.libs) now Scenario.asha = Schemas.Valid d ->
        (forall u, Users.lookup (Schemas.email d) [] = Some u ->
           fst r
           = ErrorReply 400 "Email already registered. Please login or use a different email."
           /\ users (snd r) = []
           /\ pending_users (snd r) = [])
        /\ (Users.lookup (Schemas.email d) [] = None ->
            fst r
            = Reply 200
                (MessageResponse
                   "OTP sent successfully! Please check your email to verify your account."
                   (Schemas.email d) 10)
            /\ exists p,
                 Pending.lookup (Schemas.email d) (pending_users (snd r)) = Some p
                 /\ PendingUser.otp_code p = "123456"
                 /\ PendingUser.otp_attempts p = 0))
  /\ In (status_of (fst r)) [200; 400; 422].
Proof.
  exact (post_signup_statuses (L := Stub.libs) (LS := stub_libs_spec)
           Scenario.t0 Journey.start Scenario.asha empty_world
           stub_validate_email_idempotent empty_world_store_ok).
Defined.

